(** * TimeTree to Discord notification

    A shallow embedding of [timetree_scraper.py], [discord_notifier.py] and
    [main.py], followed by the properties of the event pipeline: sign-in,
    chunked fetch, timestamp normalization, date filtering, rendering and
    webhook delivery, and of the program as a whole.

    Layout: the Python values the program handles ([Py]), naive datetimes
    ([DT]), the scraper ([Scraper]), the date helper of main.py ([Main]),
    the notifier ([Notifier]), the program of main.py ([Program]) and then
    the theorems.

    Conventions of the model:
    - a function that can raise returns an [outcome]; an exception is
      represented by its class, its message is left out;
    - the network is the list of the replies of the server to the requests
      still to come; a function that sends requests returns [None] when
      that list ends before it does;
    - [datetime.fromtimestamp] (local time zone, C library) and the
      interpreter's [repr] of floats, lists and dicts are parameters;
    - every call of [datetime.now()] is a reading of a clock given as an
      argument. *)

From Stdlib Require Import ZArith NArith List Bool Lia String Ascii.
From Stdlib Require Import Floats DecimalString.
From stdpp Require Import base option list gmap.

Set Warnings "-register-all".
Open Scope Z_scope.

(* ================================================================== *)
(** ** Python values *)

Module Py.

(** A Python [str] is a sequence of Unicode code points: [len] and slicing
    count code points, not bytes. *)
Abbreviation str := (list N) (only parsing).

(** Decoding of the UTF-8 bytes of a literal of this file. *)
Fixpoint utf8_decode (bs : list N) : str :=
  match bs with
  | [] => []
  | b0 :: t0 =>
    if (b0 <? 128)%N then b0 :: utf8_decode t0
    else match t0 with
      | [] => []
      | b1 :: t1 =>
        if (b0 <? 224)%N
        then ((b0 - 192) * 64 + (b1 - 128))%N :: utf8_decode t1
        else match t1 with
          | [] => []
          | b2 :: t2 =>
            if (b0 <? 240)%N
            then ((b0 - 224) * 4096 + (b1 - 128) * 64 + (b2 - 128))%N
                   :: utf8_decode t2
            else match t2 with
              | [] => []
              | b3 :: t3 =>
                ((b0 - 240) * 262144 + (b1 - 128) * 4096
                 + (b2 - 128) * 64 + (b3 - 128))%N :: utf8_decode t3
              end
          end
      end
  end.

Definition text (s : string) : str :=
  utf8_decode (map N_of_ascii (list_ascii_of_string s)).

Definition newline : str := [10%N].

(** [sep.join(parts)]. *)
Fixpoint join (sep : str) (parts : list str) : str :=
  match parts with
  | [] => []
  | [p] => p
  | p :: rest => p ++ sep ++ join sep rest
  end.

(** Decimal rendering of an [int], as [str(n)] and [f"{n}"] give it. *)
Definition decimal (z : Z) : str :=
  text (NilZero.string_of_int (Z.to_int z)).

(** The exception classes that occur.  [LoginError] and
    [CalendarNotFoundError] derive from [TimeTreeScraperError]; the other
    classes are unrelated as far as the handlers of this program go. *)
Inductive exn :=
| RequestException | ValueError | TypeError | AttributeError
| OverflowError | OSError
| TimeTreeScraperError | LoginError | CalendarNotFoundError
| DiscordNotifierError.

Definition exn_eqb (a b : exn) : bool :=
  match a, b with
  | RequestException, RequestException | ValueError, ValueError
  | TypeError, TypeError | AttributeError, AttributeError
  | OverflowError, OverflowError | OSError, OSError
  | TimeTreeScraperError, TimeTreeScraperError | LoginError, LoginError
  | CalendarNotFoundError, CalendarNotFoundError
  | DiscordNotifierError, DiscordNotifierError => true
  | _, _ => false
  end.

(** A computation either returns or raises.  The message of an exception
    is not modelled, only its class. *)
Inductive outcome (A : Type) :=
| Return (a : A)
| Raise (e : exn).
Arguments Return {A} a.
Arguments Raise {A} e.

Definition bind {A B} (m : outcome A) (k : A -> outcome B) : outcome B :=
  match m with
  | Return a => k a
  | Raise e => Raise e
  end.

(** [try: body  except (classes): handler]. *)
Definition try_except {A} (body : outcome A) (classes : list exn)
    (handler : exn -> outcome A) : outcome A :=
  match body with
  | Return a => Return a
  | Raise e => if existsb (exn_eqb e) classes then handler e else Raise e
  end.

Fixpoint mapM {A B} (f : A -> outcome B) (l : list A) : outcome (list B) :=
  match l with
  | [] => Return []
  | a :: rest =>
    bind (f a) (fun b => bind (mapM f rest) (fun bs => Return (b :: bs)))
  end.

(** The values a decoded JSON body is made of.  A [dict] is a finite map;
    a [float] is an IEEE binary64. *)
Inductive pyval :=
| VNone
| VBool (b : bool)
| VInt (z : Z)
| VFloat (f : float)
| VStr (s : str)
| VList (l : list pyval)
| VDict (m : gmap str pyval).

(** Truth value of [if v:]. *)
Definition truthy (v : pyval) : bool :=
  match v with
  | VNone => false
  | VBool b => b
  | VInt z => negb (z =? 0)
  | VFloat f => negb (PrimFloat.eqb f 0%float)
  | VStr s => match s with [] => false | _ :: _ => true end
  | VList l => match l with [] => false | _ :: _ => true end
  | VDict m => negb (bool_decide (m = ∅))
  end.

(** A dict literal, from its items. *)
Definition item (key : string) (v : pyval) : str * pyval := (text key, v).
Definition dict (items : list (str * pyval)) : pyval :=
  VDict (list_to_map items).

(** [v.get(key)]: [AttributeError] unless [v] is a dict; the result is
    [None] when the key is missing. *)
Definition get (v : pyval) (key : string) : outcome pyval :=
  match v with
  | VDict m => Return (default VNone (m !! text key))
  | _ => Raise AttributeError
  end.

(** [v.get(key, dflt)]. *)
Definition get_default (v : pyval) (key : string) (dflt : pyval)
    : outcome pyval :=
  match v with
  | VDict m => Return (default dflt (m !! text key))
  | _ => Raise AttributeError
  end.

(** [for x in v]: the items visited.  A dict yields its keys and a string
    its characters; the other scalars are not iterable. *)
Definition iterate (v : pyval) : outcome (list pyval) :=
  match v with
  | VList l => Return l
  | VDict m => Return (map (fun kv => VStr (fst kv)) (map_to_list m))
  | VStr s => Return (map (fun c => VStr [c]) s)
  | VNone | VBool _ | VInt _ | VFloat _ => Raise TypeError
  end.

(** [a / b] on two ints: the correctly rounded quotient, [OverflowError]
    when it exceeds the float range. *)
Definition spec_of_int (z : Z) : spec_float :=
  match z with
  | Z0 => S754_zero false
  | Zpos p => S754_finite false p 0
  | Zneg p => S754_finite true p 0
  end.

Definition int_truediv (a b : Z) : outcome float :=
  match SFdiv 53 1024 (spec_of_int a) (spec_of_int b) with
  | S754_infinity _ => Raise OverflowError
  | q => Return (SF2Prim q)
  end.

(** [v / 1000]: defined on numbers ([bool] is a subclass of [int]),
    [TypeError] on everything else. *)
Definition div1000 (v : pyval) : outcome float :=
  match v with
  | VInt z => int_truediv z 1000
  | VBool b => int_truediv (if b then 1 else 0) 1000
  | VFloat f => Return (f / 1000)%float
  | VNone | VStr _ | VList _ | VDict _ => Raise TypeError
  end.

(** [str(v)], which [f"{v}"] also yields; [py_repr] is the rendering the
    interpreter gives to floats, lists and dicts. *)
Definition format_value (py_repr : pyval -> str) (v : pyval) : str :=
  match v with
  | VStr s => s
  | VNone => text "None"
  | VBool true => text "True"
  | VBool false => text "False"
  | VInt z => decimal z
  | VFloat _ | VList _ | VDict _ => py_repr v
  end.

End Py.

Notation "x <- m ;; k" := (Py.bind m (fun x => k))
  (at level 100, m at next level, right associativity).

(* ================================================================== *)
(** ** Naive datetimes *)

Module DT.
Import Py.

(** A naive [datetime]: the fields the interpreter stores. *)
Record datetime := mk {
  year : Z; month : Z; day : Z;
  hour : Z; minute : Z; second : Z; microsecond : Z
}.

(** A [date], as [datetime.date()] returns it. *)
Record date := mkdate { dyear : Z; dmonth : Z; dday : Z }.

Definition date_of (d : datetime) : date :=
  mkdate (year d) (month d) (day d).

(** Datetimes compare field by field, most significant first. *)
Fixpoint lex (a b : list Z) : comparison :=
  match a, b with
  | [], [] => Eq
  | [], _ :: _ => Lt
  | _ :: _, [] => Gt
  | x :: a', y :: b' =>
    match x ?= y with
    | Eq => lex a' b'
    | c => c
    end
  end.

Definition fields (d : datetime) : list Z :=
  [year d; month d; day d; hour d; minute d; second d; microsecond d].

Definition compare (a b : datetime) : comparison := lex (fields a) (fields b).

Definition ltb (a b : datetime) : bool :=
  match compare a b with Lt => true | _ => false end.

Definition leb (a b : datetime) : bool :=
  match compare a b with Gt => false | _ => true end.

Definition date_ltb (a b : date) : bool :=
  match lex [dyear a; dmonth a; dday a] [dyear b; dmonth b; dday b] with
  | Lt => true
  | _ => false
  end.

Definition date_eqb (a b : date) : bool :=
  (dyear a =? dyear b) && (dmonth a =? dmonth b) && (dday a =? dday b).

(** [datetime.min] *)
Definition min : datetime := mk 1 1 1 0 0 0 0.

(** [datetime.combine(date, datetime.min.time())] *)
Definition combine_midnight (d : date) : datetime :=
  mk (dyear d) (dmonth d) (dday d) 0 0 0 0.

(** [dt.replace(hour=0, minute=0, second=0, microsecond=0)] *)
Definition replace_midnight (d : datetime) : datetime :=
  mk (year d) (month d) (day d) 0 0 0 0.

(** The proleptic Gregorian ordinal of a date, day 1 being 0001-01-01,
    computed as the interpreter's [_ymd2ord] does. *)
Definition is_leap (y : Z) : bool :=
  (y mod 4 =? 0) && (negb (y mod 100 =? 0) || (y mod 400 =? 0)).

Definition days_before_year (y : Z) : Z :=
  let y := y - 1 in y * 365 + y / 4 - y / 100 + y / 400.

Definition days_in_month (leap : bool) (m : Z) : Z :=
  if m =? 2 then (if leap then 29 else 28)
  else if (m =? 4) || (m =? 6) || (m =? 9) || (m =? 11) then 30
  else 31.

Definition days_before_month (leap : bool) (m : Z) : Z :=
  fold_right Z.add 0
    (map (days_in_month leap) (map Z.of_nat (seq 1 (Z.to_nat (m - 1))))).

Definition toordinal (d : date) : Z :=
  days_before_year (dyear d)
  + days_before_month (is_leap (dyear d)) (dmonth d)
  + dday d.

(** [date.fromordinal], after the interpreter's [_ord2ymd]. *)
Definition fromordinal (n : Z) : date :=
  let n := n - 1 in
  let n400 := n / 146097 in let n := n mod 146097 in
  let n100 := n / 36524 in let n := n mod 36524 in
  let n4 := n / 1461 in let n := n mod 1461 in
  let n1 := n / 365 in let n := n mod 365 in
  let y := n400 * 400 + 1 + n100 * 100 + n4 * 4 + n1 in
  if (n1 =? 4) || (n100 =? 4) then mkdate (y - 1) 12 31
  else
    let leap := (n1 =? 3) && (negb (n4 =? 24) || (n100 =? 3)) in
    let m := Z.shiftr (n + 50) 5 in
    let preceding := days_before_month leap m in
    if n <? preceding
    then mkdate y (m - 1)
           (n - (preceding - days_in_month leap (m - 1)) + 1)
    else mkdate y m (n - preceding + 1).

Definition max_ordinal : Z := 3652059.

(** [dt + timedelta(days=n)]: [OverflowError] outside years 1..9999. *)
Definition add_days (d : datetime) (n : Z) : outcome datetime :=
  let o := toordinal (date_of d) + n in
  if (0 <? o) && (o <=? max_ordinal)
  then let d' := fromordinal o in
       Return (mk (dyear d') (dmonth d') (dday d')
                  (hour d) (minute d) (second d) (microsecond d))
  else Raise OverflowError.

(** [dt.weekday()], Monday being 0. *)
Definition weekday (d : datetime) : Z := (toordinal (date_of d) + 6) mod 7.

(** A number zero-padded to [width] digits. *)
Definition padded (width : nat) (z : Z) : str :=
  let s := decimal z in
  repeat 48%N (width - length s) ++ s.

(** [dt.strftime("%H:%M")] *)
Definition strftime_HM (d : datetime) : str :=
  padded 2 (hour d) ++ text ":" ++ padded 2 (minute d).

(** [dt.strftime("%Y/%m/%d %H:%M")], the year in the four digits the
    language reference documents. *)
Definition strftime_Ymd_HM (d : datetime) : str :=
  padded 4 (year d) ++ text "/" ++ padded 2 (month d) ++ text "/"
  ++ padded 2 (day d) ++ text " " ++ strftime_HM d.

End DT.

(* ================================================================== *)
(** ** timetree_scraper.py *)

Module Scraper.
Import Py DT.

(** The value stored under the key ["start"] or ["end"] of an event dict:
    the key is missing, or holds [None], or holds a datetime.  [get_events]
    never stores anything else there. *)
Inductive slot :=
| Unset
| IsNone
| At (d : datetime).

(** An event dict, as [get_events] builds it.  [title] is [None] when the
    key is missing (the notifier reads it with a default); the keys that
    are only read through [.get(key)] hold [VNone] when missing. *)
Record event := mkevent {
  event_id : pyval;
  title : option pyval;
  all_day : pyval;
  location : pyval;
  description : pyval;
  color : pyval;
  start : slot;
  end_ : slot
}.

(** What [requests] hands back: the parsed fields of a response, [json]
    being [None] when [response.json()] raises. *)
Record response := mkresponse {
  status_code : Z;
  cookies : gmap str str;
  json : option pyval
}.

(** One request either fails in transport (a [requests.RequestException],
    the 30 second timeout included) or is answered. *)
Inductive reply :=
| Failed
| Responded (r : response).

(** The state of a [TimeTreeScraper]. *)
Record scraper := mkscraper {
  email : str;
  password : str;
  session_id : option str;
  session_cookies : gmap str str
}.

Definition API_BASEURI : str := text "https://timetreeapp.com/api/v1".

(** The body of the sign-in request; [uuid] is [str(uuid.uuid4())]. *)
Definition signin_payload (self : scraper) (uuid : str) : list (str * str) :=
  [(text "uid", email self);
   (text "password", password self);
   (text "uuid", List.filter (fun c => negb (c =? 45)%N) uuid)].

(** [login]: the outcome and the scraper afterwards. *)
Definition login (self : scraper) (net : reply) : outcome unit * scraper :=
  match net with
  | Failed => (Raise LoginError, self)
  | Responded response =>
    if negb (status_code response =? 200) then (Raise LoginError, self)
    else
      let sid := cookies response !! text "_session_id" in
      let self :=
        mkscraper (email self) (password self) sid (session_cookies self) in
      match sid with
      | None | Some [] => (Raise LoginError, self)
      | Some (c :: s) =>
        (Return tt,
         mkscraper (email self) (password self) sid
           (<[text "_session_id" := c :: s]> (session_cookies self)))
      end
  end.

Section Runtime.

(** [datetime.fromtimestamp] in the local time zone of the host, and the
    interpreter's rendering of floats, lists and dicts (see
    [format_value]). *)
Variable fromtimestamp : float -> outcome datetime.
Variable py_repr : pyval -> str.

(** A calendar entry of [get_calendars]. *)
Record calendar := mkcalendar { cal_id : str; cal_name : pyval }.

Definition calendar_entry (cal : pyval) : outcome calendar :=
  i <- get cal "id" ;;
  n <- get cal "name" ;;
  Return (mkcalendar (format_value py_repr i) n).

Definition get_calendars (net : reply) : outcome (list calendar) :=
  match net with
  | Failed => Raise TimeTreeScraperError
  | Responded response =>
    if negb (status_code response =? 200) then Raise TimeTreeScraperError
    else
      try_except
        (match json response with
         | None => Raise ValueError
         | Some data =>
           cals <- get_default data "calendars" (VList []) ;;
           items <- iterate cals ;;
           mapM calendar_entry items
         end)
        [RequestException; ValueError]
        (fun _ => Raise TimeTreeScraperError)
  end.

(** The timestamp block of the event loop, for the key ["start_at"] or
    ["end_at"]:
<<
    if ev.get(key):
        try:    event_data[field] = datetime.fromtimestamp(ev[key] / 1000)
        except (TypeError, ValueError): event_data[field] = None
>>  *)
Definition read_timestamp (ev : pyval) (key : string) : outcome slot :=
  raw <- get ev key ;;
  if truthy raw then
    try_except
      (seconds <- div1000 raw ;;
       d <- fromtimestamp seconds ;;
       Return (At d))
      [TypeError; ValueError]
      (fun _ => Return IsNone)
  else Return Unset.

(** The body of the event loop: one raw record to one event dict. *)
Definition event_data (ev : pyval) : outcome event :=
  i <- get ev "id" ;;
  t <- get_default ev "title" (VStr (text "Untitled")) ;;
  a <- get_default ev "all_day" (VBool false) ;;
  l <- get ev "location" ;;
  n <- get ev "note" ;;
  c <- get ev "label_id" ;;
  s <- read_timestamp ev "start_at" ;;
  e <- read_timestamp ev "end_at" ;;
  Return (mkevent i (Some t) a l n c s e).

(** What both fetch functions do with a decoded body: the event loop, then
    the reads of ["chunk"] and ["since"]. *)
Definition read_page (data : pyval) : outcome (list event * pyval * pyval) :=
  evs <- get_default data "events" (VList []) ;;
  items <- iterate evs ;;
  events <- mapM event_data items ;;
  chunk <- get data "chunk" ;;
  since <- get data "since" ;;
  Return (events, chunk, since).

(** [v is True] *)
Definition is_True (v : pyval) : bool :=
  match v with
  | VBool true => true
  | _ => false
  end.

Definition sync_url (calendar_id : str) : str :=
  API_BASEURI ++ text "/calendar/" ++ calendar_id ++ text "/events/sync".

(** The handlers of the two fetch functions. *)
Definition swallow (body : outcome (list event)) : outcome (list event) :=
  try_except body [RequestException; ValueError] (fun _ => Return []).

Definition translate (body : outcome (list event)) : outcome (list event) :=
  try_except body [RequestException; ValueError]
    (fun _ => Raise TimeTreeScraperError).

(** [_get_events_recursive].  [net] lists the replies of the server to the
    requests still to come, in order; the result is [None] when the list
    ends before the function does.  Beside the outcome the function
    reports the URLs it requested.  The recursion limit of the interpreter
    is not modelled. *)
Fixpoint _get_events_recursive (calendar_id : str) (since : pyval)
    (net : list reply) : option (outcome (list event) * list str) :=
  let url :=
    sync_url calendar_id ++ text "?since=" ++ format_value py_repr since in
  match net with
  | [] => None
  | Failed :: _ => Some (Return [], [url])
  | Responded response :: net' =>
    if negb (status_code response =? 200) then Some (Return [], [url])
    else
      match json response with
      | None => Some (Return [], [url])
      | Some data =>
        match read_page data with
        | Raise e => Some (swallow (Raise e), [url])
        | Return (events, chunk, since') =>
          if is_True chunk then
            match _get_events_recursive calendar_id since' net' with
            | None => None
            | Some (more, urls) =>
              Some (swallow (m <- more ;; Return (events ++ m)), url :: urls)
            end
          else Some (Return events, [url])
        end
      end
  end.

(** [get_events] *)
Definition get_events (calendar_id : str) (net : list reply)
    : option (outcome (list event) * list str) :=
  let url := sync_url calendar_id in
  match net with
  | [] => None
  | Failed :: _ => Some (Raise TimeTreeScraperError, [url])
  | Responded response :: net' =>
    if negb (status_code response =? 200)
    then Some (Raise TimeTreeScraperError, [url])
    else
      match json response with
      | None => Some (Raise TimeTreeScraperError, [url])
      | Some data =>
        match read_page data with
        | Raise e => Some (translate (Raise e), [url])
        | Return (events, chunk, since) =>
          if is_True chunk && truthy since then
            match _get_events_recursive calendar_id since net' with
            | None => None
            | Some (more, urls) =>
              Some (translate (m <- more ;; Return (events ++ m)),
                    url :: urls)
            end
          else Some (Return events, [url])
        end
      end
  end.

(** The filter loop of [get_upcoming_events]; [get_events_for_date] of
    main.py repeats it. *)
Definition in_range (start_date end_date : datetime) (event : event) : bool :=
  match start event with
  | At event_start =>
    if leb start_date event_start && ltb event_start end_date then true
    else if truthy (all_day event) && leb event_start end_date then
      match end_ event with
      | At event_end => ltb start_date event_end
      | Unset | IsNone => false
      end
    else false
  | Unset | IsNone => false
  end.

Definition events_in_range (start_date end_date : datetime)
    (all_events : list event) : list event :=
  List.filter (in_range start_date end_date) all_events.

(** [get_upcoming_events]; [now] is the reading of [datetime.now()]. *)
Definition get_upcoming_events (calendar_id : option str) (days : Z)
    (now : datetime) (net : list reply) : option (outcome (list event)) :=
  let fetch (calendar_id : str) (net : list reply) :=
    match get_events calendar_id net with
    | None => None
    | Some (r, _) =>
      Some (all_events <- r ;;
            let start_date := replace_midnight now in
            end_date <- add_days start_date days ;;
            Return (events_in_range start_date end_date all_events))
    end in
  match calendar_id with
  | Some (c :: s) => fetch (c :: s) net
  | None | Some [] =>
    match net with
    | [] => None
    | r :: net' =>
      match get_calendars r with
      | Raise e => Some (Raise e)
      | Return [] => Some (Raise CalendarNotFoundError)
      | Return (cal :: _) => fetch (cal_id cal) net'
      end
    end
  end.

End Runtime.
End Scraper.

(* ================================================================== *)
(** ** main.py *)

Module Main.
Import Py DT Scraper.

(** [get_events_for_date] *)
Definition get_events_for_date (fromtimestamp : float -> outcome datetime)
    (py_repr : pyval -> str) (calendar_id : str) (target_date : datetime)
    (net : list reply) : option (outcome (list event)) :=
  let start := replace_midnight target_date in
  match add_days start 1 with
  | Raise e => Some (Raise e)
  | Return end_ =>
    match get_events fromtimestamp py_repr calendar_id net with
    | None => None
    | Some (r, _) =>
      Some (all_events <- r ;; Return (events_in_range start end_ all_events))
    end
  end.

End Main.

(* ================================================================== *)
(** ** discord_notifier.py *)

Module Notifier.
Import Py DT Scraper.

(** A field of an embed. *)
Record field := mkfield { name : str; value : str; inline : bool }.

(** An embed object.  The description and the fields are [None] when the
    dict has no such key; the footer is given by its text. *)
Record embed := mkembed {
  embed_title : str;
  embed_description : option str;
  embed_color : Z;
  embed_fields : option (list field);
  embed_footer : str
}.

(** The body of a webhook request. *)
Inductive payload :=
| Embeds (embeds : list embed)
| Content (content : str) (username : option str).

Definition blurple : Z := 0x5865F2.
Definition green : Z := 0x57F287.

Definition weekdays : list str :=
  [text "月"; text "火"; text "水"; text "木"; text "金"; text "土";
   text "日"].

(** [_format_date] *)
Definition _format_date (dt : datetime) : str :=
  decimal (month dt) ++ text "月" ++ decimal (day dt) ++ text "日 ("
  ++ nth (Z.to_nat (weekday dt)) weekdays [] ++ text ")".

(** [_format_time] *)
Definition _format_time (dt : datetime) : str := strftime_HM dt.

(** [prefix + v]: a [TypeError] unless [v] is a [str]. *)
Definition str_plus (prefix : str) (v : pyval) : outcome str :=
  match v with
  | VStr s => Return (prefix ++ s)
  | _ => Raise TypeError
  end.

(** The change made to a field value before it is stored:
<<
    if len(field_value) > 1024:
        field_value = field_value[:1020] + "..."
>>  *)
Definition limit_field_value (field_value : str) : str :=
  if (1024 <? length field_value)%nat
  then take 1020 field_value ++ text "..."
  else field_value.

Definition updated (dt : datetime) : str :=
  strftime_Ymd_HM dt ++ text " 更新".

Section Runtime.

Variable py_repr : pyval -> str.

(** [_format_event] *)
Definition _format_event (event : event) : outcome str :=
  let title := default (VStr (text "Untitled")) (title event) in
  first <-
    (if truthy (all_day event) then str_plus (text "• 終日 - ") title
     else
       match start event, end_ event with
       | At s, At e =>
         str_plus (text "• " ++ _format_time s ++ text " - "
                 ++ _format_time e ++ text " ") title
       | _, _ => str_plus (text "• ") title
       end) ;;
  Return
    (join newline
       (if truthy (location event)
        then [first; text "  📍 " ++ format_value py_repr (location event)]
        else [first])).

(** ["\n".join(self._format_event(e) for e in events)], cut to the field
    limit. *)
Definition render_field_value (events : list event) : outcome str :=
  lines <- mapM _format_event events ;;
  Return (limit_field_value (join newline lines)).

(** [sorted(events, key=lambda e: e.get("start") or datetime.min)]: a
    stable sort on the key. *)
Definition sort_key (e : event) : datetime :=
  match start e with
  | At d => d
  | Unset | IsNone => DT.min
  end.

Fixpoint insert_sorted (x : event) (l : list event) : list event :=
  match l with
  | [] => [x]
  | y :: l' =>
    if ltb (sort_key x) (sort_key y) then x :: y :: l'
    else y :: insert_sorted x l'
  end.

Definition sorted_events (events : list event) : list event :=
  fold_left (fun acc e => insert_sorted e acc) events [].

(** [events_by_date[date_key].append(event)], creating the list on the
    first use of the key; the dict keeps the order of insertion. *)
Fixpoint bucket_append (date_key : date) (ev : event)
    (buckets : list (date * list event)) : list (date * list event) :=
  match buckets with
  | [] => [(date_key, [ev])]
  | (k, evs) :: rest =>
    if date_eqb k date_key then (k, evs ++ [ev]) :: rest
    else (k, evs) :: bucket_append date_key ev rest
  end.

(** The grouping loop.  [clock k] is what the [k]-th call of
    [datetime.now()] returns; [tick] counts the calls made so far. *)
Fixpoint group_by_date (clock : nat -> datetime) (tick : nat)
    (events : list event) (buckets : list (date * list event))
    : list (date * list event) :=
  match events with
  | [] => buckets
  | ev :: rest =>
    match start ev with
    | At d =>
      group_by_date clock tick rest (bucket_append (date_of d) ev buckets)
    | Unset | IsNone =>
      group_by_date clock (S tick) rest
        (bucket_append (date_of (clock tick)) ev buckets)
    end
  end.

(** [sorted(events_by_date.items())]: the keys are distinct, so the order
    is the order of the dates. *)
Fixpoint insert_bucket (b : date * list event)
    (l : list (date * list event)) : list (date * list event) :=
  match l with
  | [] => [b]
  | c :: l' =>
    if date_ltb (fst b) (fst c) then b :: c :: l' else c :: insert_bucket b l'
  end.

Definition sorted_buckets (buckets : list (date * list event))
    : list (date * list event) :=
  fold_left (fun acc b => insert_bucket b acc) buckets [].

Definition date_field (b : date * list event) : outcome field :=
  field_value <- render_field_value (snd b) ;;
  Return (mkfield (text "🗓️ " ++ _format_date (combine_midnight (fst b)))
            field_value false).

(** [_create_embeds] *)
Definition _create_embeds (clock : nat -> datetime) (events : list event)
    : outcome (list embed) :=
  match events with
  | [] => Return []
  | _ :: _ =>
    let footer := updated (clock 0%nat) in
    let events_by_date := group_by_date clock 1 (sorted_events events) [] in
    fs <- mapM date_field (sorted_buckets events_by_date) ;;
    Return [mkembed (text "📅 今週のTimeTree予定") None blurple (Some fs)
              footer]
  end.

(** One block of the daily notification. *)
Definition daily_embed (heading : str) (events : list event)
    (current_date : datetime) : outcome embed :=
  match events with
  | _ :: _ =>
    field_value <- render_field_value events ;;
    Return (mkembed heading None blurple
              (Some [mkfield (text "予定") field_value false])
              (updated current_date))
  | [] =>
    Return (mkembed heading (Some (text "**予定はありません**")) green None
              (updated current_date))
  end.

(** [_create_daily_embeds] *)
Definition _create_daily_embeds (today_events tomorrow_events : list event)
    (current_date tomorrow_date : datetime) : outcome (list embed) :=
  let today_str := _format_date current_date in
  let tomorrow_str := _format_date tomorrow_date in
  today <- daily_embed (text "📅 今日の予定 - " ++ today_str)
             today_events current_date ;;
  tomorrow <- daily_embed (text "📅 明日の予定 - " ++ tomorrow_str)
                tomorrow_events current_date ;;
  Return [today; tomorrow].

(** The request every send function ends with:
<<
    try:
        response = requests.post(self.webhook_url, json=payload, ...)
        response.raise_for_status()
        return True
    except requests.RequestException as e:
        raise DiscordNotifierError(...)
>>  [raise_for_status] raises for a status from 400 to 599. *)
Definition post (body : payload) (net : reply) : outcome bool :=
  try_except
    (match net with
     | Failed => Raise RequestException
     | Responded response =>
       if (400 <=? status_code response) && (status_code response <? 600)
       then Raise RequestException
       else Return true
     end)
    [RequestException]
    (fun _ => Raise DiscordNotifierError).

(** [send_daily_notification] *)
Definition send_daily_notification (today_events tomorrow_events : list event)
    (current_date tomorrow_date : datetime) (net : reply) : outcome bool :=
  embeds <- _create_daily_embeds today_events tomorrow_events
              current_date tomorrow_date ;;
  post (Embeds embeds) net.

(** [send_events] *)
Definition send_events (clock : nat -> datetime) (events : list event)
    (net : reply) : outcome bool :=
  body <-
    match events with
    | [] =>
      Return (Embeds [mkembed (text "📅 今週のTimeTree予定")
                        (Some (text "予定はありません 🎉")) green None
                        (updated (clock 0%nat))])
    | _ :: _ =>
      embeds <- _create_embeds clock events ;;
      Return (Embeds embeds)
    end ;;
  post body net.


End Runtime.
End Notifier.

(* ================================================================== *)
(** ** Notions used in the statements *)

Module Notions.
Import Py DT Scraper Notifier.

(** A sync call that fails: a transport error, a status other than 200,
    or a body that does not parse. *)
Definition call_failed (r : reply) : bool :=
  match r with
  | Failed => true
  | Responded resp =>
    negb (status_code resp =? 200)
    || match json resp with None => true | Some _ => false end
  end.

(** A sync call that succeeds: status 200 and a body from which the event
    loop returns [events], with the values [chunk] and [since]. *)
Definition delivers (fromtimestamp : float -> outcome datetime) (r : reply)
    (events : list event) (chunk since : pyval) : Prop :=
  exists resp data,
    r = Responded resp /\ status_code resp = 200 /\ json resp = Some data
    /\ read_page fromtimestamp data = Return (events, chunk, since).

(** A continuation call that succeeds and announces a further chunk. *)
Record page := mkpage {
  page_reply : reply;
  page_events : list event;
  page_since : pyval
}.

Definition continues (fromtimestamp : float -> outcome datetime) (p : page)
    : Prop :=
  delivers fromtimestamp (page_reply p) (page_events p) (VBool true)
    (page_since p).

(** The URL of a continuation call. *)
Definition continuation_url (py_repr : pyval -> str) (calendar_id : str)
    (since : pyval) : str :=
  sync_url calendar_id ++ text "?since=" ++ format_value py_repr since.

(** The title of an event is missing or a [str]. *)
Definition has_text_title (e : event) : bool :=
  match title e with
  | None | Some (VStr _) => true
  | Some _ => false
  end.

(** The two rules of the date filter. *)
Definition starts_within (start_date end_date : datetime) (e : event) : Prop :=
  exists s, start e = At s /\ leb start_date s = true /\ ltb s end_date = true.

Definition all_day_overlap (start_date end_date : datetime) (e : event)
    : Prop :=
  truthy (all_day e) = true
  /\ (exists s, start e = At s /\ leb s end_date = true)
  /\ (exists d, end_ e = At d /\ ltb start_date d = true).

(** What a block of the daily notification is for a list of events: the
    empty-state block when the list is empty, else a block whose single
    field holds the rendered lines. *)
Definition block_for (py_repr : pyval -> str) (events : list event)
    (b : embed) : Prop :=
  match events with
  | [] =>
    embed_color b = green
    /\ embed_description b = Some (text "**予定はありません**")
    /\ embed_fields b = None
  | _ :: _ =>
    embed_color b = blurple
    /\ embed_description b = None
    /\ exists lines,
         mapM (_format_event py_repr) events = Return lines
         /\ embed_fields b
            = Some [mkfield (text "予定")
                      (limit_field_value (join newline lines)) false]
  end.

(** [P] holds of every event of every bucket of the weekly grouping. *)
Definition buckets_all (P : event -> Prop)
    (buckets : list (date * list event)) : Prop :=
  forall b y, In b buckets -> In y (snd b) -> P y.

(** Stand-ins for the two functions of the runtime, for closed examples. *)
Definition epoch_clock (f : float) : outcome datetime :=
  Return (mk 1970 1 1 0 0 0 0).
Definition no_repr (v : pyval) : str := [].

End Notions.

(* ================================================================== *)
(** ** Concrete inputs for the examples *)

Module Examples.
Import Py DT Scraper Notifier Notions.

Definition ok (data : pyval) : reply :=
  Responded (mkresponse 200 ∅ (Some data)).

(** A first page: two events, [chunk = True], [since = 100]. *)
Definition first_page : pyval :=
  dict [item "events"
          (VList [dict [item "id" (VInt 1); item "title" (VStr (text "A"))];
                  dict [item "id" (VInt 2); item "title" (VStr (text "B"))]]);
        item "chunk" (VBool true);
        item "since" (VInt 100)].

Definition plain_event (i : Z) (t : string) : event :=
  mkevent (VInt i) (Some (VStr (text t))) (VBool false) VNone VNone VNone
    Unset Unset.

(** A continuation page that announces a further chunk but has no cursor. *)
Definition page_without_cursor : pyval :=
  dict [item "events" (VList [dict [item "id" (VInt 3)]]);
        item "chunk" (VBool true)].

Definition third_event : event :=
  mkevent (VInt 3) (Some (VStr (text "Untitled"))) (VBool false) VNone VNone
    VNone Unset Unset.

(** A raw record whose start is the epoch, and the same without a start. *)
Definition epoch_record : pyval :=
  dict [item "id" (VInt 1); item "title" (VStr (text "A"));
        item "start_at" (VInt 0)].

Definition startless_record : pyval :=
  dict [item "id" (VInt 1); item "title" (VStr (text "A"))].

(** A page of two records, the second with a start of 10^400 ms. *)
Definition overflow_page : pyval :=
  dict [item "events"
          (VList [dict [item "id" (VInt 1); item "title" (VStr (text "A"))];
                  dict [item "id" (VInt 2); item "title" (VStr (text "B"));
                        item "start_at" (VInt (10 ^ 400))]])].

(** Records whose start is not a number. *)
Definition text_start_record : pyval :=
  dict [item "id" (VInt 1); item "title" (VStr (text "A"));
        item "start_at" (VStr (text "tomorrow"))].

(** The event of the stand-up meeting, 09:00 to 09:30. *)
Definition standup : event :=
  mkevent VNone (Some (VStr (text "Standup"))) VNone VNone VNone VNone
    (At (mk 2026 11 5 9 0 0 0)) (At (mk 2026 11 5 9 30 0 0)).

(** An event whose title has 1100 characters, and its rendered line. *)
Definition long_event : event :=
  mkevent VNone (Some (VStr (repeat 97%N 1100))) VNone VNone VNone VNone
    Unset Unset.

Definition long_line : str := text "• " ++ repeat 97%N 1100.

(** An event whose title is [None]. *)
Definition untitled_event : event :=
  mkevent VNone (Some VNone) VNone VNone VNone VNone Unset Unset.

(** An all-day event from Monday 2 November 2026 to Wednesday 4 November
    2026, and the Tuesday in between as a window. *)
Definition two_day_event : event :=
  mkevent VNone (Some (VStr (text "Trip"))) (VBool true) VNone VNone VNone
    (At (mk 2026 11 2 0 0 0 0)) (At (mk 2026 11 4 0 0 0 0)).

Definition tuesday : datetime := mk 2026 11 3 0 0 0 0.
Definition wednesday : datetime := mk 2026 11 4 0 0 0 0.

Definition fresh_scraper : scraper :=
  mkscraper (text "user@example.com") (text "secret") None ∅.

End Examples.

(* ================================================================== *)
(** ** Further notions and inputs *)

Module More.
Import Py DT Scraper Notifier Notions Examples.

(** A timed event from Monday 23:00 to Tuesday 01:00. *)
Definition late_event : event :=
  mkevent VNone (Some (VStr (text "Night shift"))) (VBool false) VNone VNone
    VNone (At (mk 2026 11 2 23 0 0 0)) (At (mk 2026 11 3 1 0 0 0)).

(** An all-day event of Wednesday, as a one-day span. *)
Definition wednesday_event : event :=
  mkevent VNone (Some (VStr (text "Holiday"))) (VBool true) VNone VNone
    VNone (At (mk 2026 11 4 0 0 0 0)) (At (mk 2026 11 5 0 0 0 0)).

(** A calendar listing with two entries, the second without an id. *)
Definition two_calendars : pyval :=
  dict [item "calendars"
          (VList [dict [item "id" (VInt 7); item "name" (VStr (text "Home"))];
                  dict [item "name" (VStr (text "Work"))]])].

(** A listing without calendars. *)
Definition no_calendars : pyval := dict [item "calendars" (VList [])].

(** [datetime.fromtimestamp] raises nothing but the classes its
    documentation names: [ValueError], [OverflowError] and [OSError]. *)
Definition raises_as_documented (fromtimestamp : float -> outcome datetime)
    : Prop :=
  forall f e,
    fromtimestamp f = Raise e ->
    e = ValueError \/ e = OverflowError \/ e = OSError.

(** The classes that the handlers of the fetch functions let through. *)
Definition escapes_fetch (e : exn) : bool :=
  match e with
  | AttributeError | TypeError | OverflowError | OSError => true
  | _ => false
  end.

(** A raw record whose title is a JSON null, and the event read from
    it. *)
Definition null_title_record : gmap str pyval :=
  list_to_map [item "id" (VInt 1); item "title" VNone].

Definition null_title_event : event :=
  mkevent (VInt 1) (Some VNone) (VBool false) VNone VNone VNone Unset Unset.


(** The events of the buckets of the weekly grouping, bucket after
    bucket. *)
Definition bucket_events (buckets : list (date * list event)) : list event :=
  List.concat (map snd buckets).




(** An event with a start. *)
Definition has_start (e : event) : bool :=
  match start e with
  | At _ => true
  | Unset | IsNone => false
  end.

(** A clock that moves on after its first reading. *)
Definition drifting_clock (tick : nat) : datetime :=
  match tick with
  | O => mk 2026 11 4 7 0 0 0
  | S _ => mk 2026 11 5 0 0 0 0
  end.


(** The field that [_create_embeds] makes of a bucket. *)
Definition field_of (py_repr : pyval -> str) (b : date * list event)
    (f : field) : Prop :=
  name f = text "🗓️ " ++ _format_date (combine_midnight (fst b))
  /\ render_field_value py_repr (snd b) = Return (value f)
  /\ inline f = false.

(** No field of the embed has a value of more than 1024 characters. *)
Definition within_field_limit (em : embed) : Prop :=
  forall fs f,
    embed_fields em = Some fs -> In f fs -> (length (value f) <= 1024)%nat.

(** A clock that stands still on Wednesday 4 November 2026, 07:00, and
    the weekly notification of the stand-up meeting at that time. *)
Definition morning_clock (tick : nat) : datetime := mk 2026 11 4 7 0 0 0.

Definition standup_digest : list embed :=
  Eval vm_compute in
    match _create_embeds no_repr morning_clock [standup] with
    | Return embeds => embeds
    | Raise _ => []
    end.

Definition standup_field : field :=
  mkfield (text "🗓️ " ++ _format_date (mk 2026 11 5 0 0 0 0))
    (text "• 09:00 - 09:30 Standup") false.

Definition standup_block : embed :=
  mkembed (text "📅 今週のTimeTree予定") None blurple (Some [standup_field])
    (updated (mk 2026 11 4 7 0 0 0)).

(** A listing whose only calendar has the empty string as id. *)
Definition nameless_calendar : pyval :=
  dict [item "calendars" (VList [dict [item "id" (VStr [])]])].







(** The title of a raw record is missing or a string. *)
Definition raw_title_is_text (m : gmap str pyval) : Prop :=
  m !! text "title" = None \/ exists s, m !! text "title" = Some (VStr s).

End More.

(* ================================================================== *)
(** ** main.py: the program *)

Module Program.
Import Py DT Scraper Main Notifier Notions.

(** The configuration: the values of the four environment variables,
    [None] for a variable that is not set. *)
Record config := mkconfig {
  timetree_email : option str;
  timetree_password : option str;
  timetree_calendar_id : option str;
  discord_webhook_url : option str
}.

(** [if v:] on a value that is a [str] or [None]. *)
Definition is_set (v : option str) : bool :=
  match v with
  | Some (_ :: _) => true
  | Some [] | None => false
  end.

(** [load_config].  [env] is the environment after [load_dotenv()].  The
    result is the configuration or, when a required variable is missing,
    the names that are printed before [sys.exit(1)]. *)
Definition load_config (env : gmap str str) : list str + config :=
  let config :=
    mkconfig (env !! text "TIMETREE_EMAIL") (env !! text "TIMETREE_PASSWORD")
      (env !! text "TIMETREE_CALENDAR_ID")
      (env !! text "DISCORD_WEBHOOK_URL") in
  let missing :=
    (if is_set (timetree_email config) then []
     else [text "TIMETREE_EMAIL"])
    ++ (if is_set (timetree_password config) then []
        else [text "TIMETREE_PASSWORD"])
    ++ (if is_set (discord_webhook_url config) then []
        else [text "DISCORD_WEBHOOK_URL"]) in
  match missing with
  | [] => inr config
  | _ :: _ => inl missing
  end.

(** The messages that come with exit status 1: the one of [load_config],
    the one for an empty calendar listing and those of the five handlers
    of [main]. *)
Inductive message :=
| MissingVariables (names : list str)
| NoCalendarsFound
| LoginFailed
| CalendarError
| ScraperError
| DiscordError
| UnexpectedError.

(** How [main] ends: it returns (exit status 0), it calls [sys.exit(1)]
    after a message, or an exception that nothing catches ends the
    interpreter with a traceback (exit status 1 as well). *)
Inductive ending :=
| Done
| Exit1 (why : message)
| Traceback (e : exn).

(** The requests that the program sends. *)
Inductive request :=
| SignIn
| ListCalendars
| Sync (url : str)
| Webhook (body : payload).

Definition is_webhook (q : request) : bool :=
  match q with
  | Webhook _ => true
  | _ => false
  end.

(** The number of messages posted to the webhook. *)
Definition posts (requests : list request) : nat :=
  length (List.filter is_webhook requests).

(** A stretch of the program goes on with a value, raises, or leaves
    through [sys.exit(1)], which no handler of [main] catches
    ([SystemExit] is no [Exception]). *)
Inductive step (A : Type) :=
| Go (a : A)
| Throw (e : exn)
| Quit (why : message).
Arguments Go {A} a.
Arguments Throw {A} e.
Arguments Quit {A} why.

(** A stretch of the program, run on the replies of the servers to the
    requests still to come: how it ends, the replies that are left and
    the requests it sent, or [None] when the replies run out. *)
Definition run (A : Type) : Type :=
  list reply -> option (step A * list reply * list request).

Definition ret {A} (a : A) : run A := fun net => Some (Go a, net, []).

Definition sys_exit {A} (why : message) : run A :=
  fun net => Some (Quit why, net, []).

Definition of_outcome {A} (m : outcome A) : step A :=
  match m with
  | Return a => Go a
  | Raise e => Throw e
  end.

(** A computation that sends nothing. *)
Definition lift {A} (m : outcome A) : run A :=
  fun net => Some (of_outcome m, net, []).

Definition seq {A B} (m : run A) (k : A -> run B) : run B :=
  fun net =>
    match m net with
    | None => None
    | Some (Go a, net', sent) =>
      match k a net' with
      | None => None
      | Some (s, net'', sent') => Some (s, net'', sent ++ sent')
      end
    | Some (Throw e, net', sent) => Some (Throw e, net', sent)
    | Some (Quit why, net', sent) => Some (Quit why, net', sent)
    end.

Notation "x <~ m ;; k" := (seq m (fun x => k))
  (at level 100, m at next level, right associativity).

(** One request and what a function of this program makes of the
    reply. *)
Definition request_one {A} (q : request) (f : reply -> outcome A) : run A :=
  fun net =>
    match net with
    | [] => None
    | r :: net' => Some (of_outcome (f r), net', [q])
    end.

Section Runtime.

Variable fromtimestamp : float -> outcome datetime.
Variable py_repr : pyval -> str.

(** [scraper.login()] on a new scraper.  What the sign-in leaves in the
    scraper plays no role afterwards: the session only decides what the
    server replies. *)
Definition sign_in (config : config) : run unit :=
  request_one SignIn
    (fun r =>
       fst (login (mkscraper (default [] (timetree_email config))
                     (default [] (timetree_password config)) None ∅) r)).

(** [scraper.get_calendars()] *)
Definition fetch_calendars : run (list calendar) :=
  request_one ListCalendars (get_calendars py_repr).

(** [list_calendars] *)
Definition list_calendars : run (list calendar) := fetch_calendars.

(** [scraper.get_events(calendar_id)], one reply for each URL it
    requests. *)
Definition fetch_events (calendar_id : str) : run (list event) :=
  fun net =>
    match get_events fromtimestamp py_repr calendar_id net with
    | None => None
    | Some (r, urls) =>
      Some (of_outcome r, drop (length urls) net, map Sync urls)
    end.

(** [get_events_for_date] as a stretch of the program. *)
Definition events_for_date (calendar_id : str) (target_date : datetime)
    : run (list event) :=
  let start := replace_midnight target_date in
  end_ <~ lift (add_days start 1) ;;
  all_events <~ fetch_events calendar_id ;;
  ret (events_in_range start end_ all_events).

(** [scraper.get_upcoming_events(calendar_id, days)] as a stretch of the
    program; [now] is what its call of [datetime.now()] returns. *)
Definition upcoming_events (calendar_id : option str) (days : Z)
    (now : datetime) : run (list event) :=
  calendar_id <~
    match calendar_id with
    | Some (c :: s) => ret (c :: s)
    | None | Some [] =>
      calendars <~ fetch_calendars ;;
      match calendars with
      | [] => lift (Raise CalendarNotFoundError)
      | cal :: _ => ret (cal_id cal)
      end
    end ;;
  all_events <~ fetch_events calendar_id ;;
  let start_date := replace_midnight now in
  end_date <~ lift (add_days start_date days) ;;
  ret (events_in_range start_date end_date all_events).

(** [notifier.send_daily_notification(...)] *)
Definition send_daily (today_events tomorrow_events : list event)
    (current_date tomorrow_date : datetime) : run bool :=
  embeds <~ lift (_create_daily_embeds py_repr today_events tomorrow_events
                    current_date tomorrow_date) ;;
  request_one (Webhook (Embeds embeds)) (post (Embeds embeds)).

(** The title of the weekly notification. *)
Definition week_title (now week_end : datetime) : str :=
  text "📅 今週の予定 (" ++ decimal (month now) ++ text "/"
  ++ decimal (day now) ++ text " 〜 " ++ decimal (month week_end)
  ++ text "/" ++ decimal (day week_end) ++ text ")".

(** [embeds[0]["title"] = week_title] *)
Definition with_title (t : str) (em : embed) : embed :=
  mkembed t (embed_description em) (embed_color em) (embed_fields em)
    (embed_footer em).

(** [requests.post(...)] alone: the status of the response is not looked
    at. *)
Definition post_unchecked (r : reply) : outcome unit :=
  match r with
  | Failed => Raise RequestException
  | Responded _ => Return tt
  end.

(** The block of [main] that runs on a Monday.  [clock 0] is the [now] of
    [main]; the next reading is the one of [get_upcoming_events] and the
    ones after it are those of [_create_embeds]. *)
Definition weekly (calendar_id : str) (clock : nat -> datetime) : run unit :=
  let now := clock 0%nat in
  week_end <~ lift (add_days now 6) ;;
  week_events <~ upcoming_events (Some calendar_id) 7 (clock 1%nat) ;;
  let week_title := week_title now week_end in
  embeds <~ lift (_create_embeds py_repr (fun k => clock (2 + k)%nat)
                    week_events) ;;
  let payload :=
    match embeds with
    | em :: rest => Embeds (with_title week_title em :: rest)
    | [] =>
      Embeds [mkembed week_title (Some (text "予定はありません 🎉")) green
                None (updated now)]
    end in
  request_one (Webhook payload) post_unchecked.

(** The [try] block of [main]. *)
Definition notify (config : config) (clock : nat -> datetime) : run unit :=
  let now := clock 0%nat in
  _ <~ sign_in config ;;
  calendar_id <~
    (if is_set (timetree_calendar_id config)
     then ret (default [] (timetree_calendar_id config))
     else
       calendars <~ fetch_calendars ;;
       match calendars with
       | cal :: _ => ret (cal_id cal)
       | [] => sys_exit NoCalendarsFound
       end) ;;
  today_events <~ events_for_date calendar_id now ;;
  tomorrow <~ lift (add_days now 1) ;;
  tomorrow_events <~ events_for_date calendar_id tomorrow ;;
  _ <~ send_daily today_events tomorrow_events now tomorrow ;;
  if weekday now =? 0 then weekly calendar_id clock else ret tt.

(** The [except] clauses of [main], in their order; [LoginError] and
    [CalendarNotFoundError] come before their base class. *)
Definition handler (e : exn) : message :=
  match e with
  | LoginError => LoginFailed
  | CalendarNotFoundError => CalendarError
  | TimeTreeScraperError => ScraperError
  | DiscordNotifierError => DiscordError
  | _ => UnexpectedError
  end.

(** [len(sys.argv) > 1 and sys.argv[1] in ["--list", "-l"]] *)
Definition wants_list (argv : list str) : bool :=
  match argv with
  | _ :: a :: _ =>
    bool_decide (a = text "--list") || bool_decide (a = text "-l")
  | _ => false
  end.

(** [main].  [argv] is [sys.argv], [env] the environment, [clock] the
    successive readings of [datetime.now()] and [net] the replies of the
    servers; the result is how the program ends and the requests it
    sent.  What it prints is left out. *)
Definition main (argv : list str) (env : gmap str str)
    (clock : nat -> datetime) (net : list reply)
    : option (ending * list request) :=
  if wants_list argv then
    match load_config env with
    | inl missing => Some (Exit1 (MissingVariables missing), [])
    | inr config =>
      match (_ <~ sign_in config ;; list_calendars) net with
      | None => None
      | Some (Go _, _, sent) => Some (Done, sent)
      | Some (Throw e, _, sent) => Some (Traceback e, sent)
      | Some (Quit why, _, sent) => Some (Exit1 why, sent)
      end
    end
  else
    match load_config env with
    | inl missing => Some (Exit1 (MissingVariables missing), [])
    | inr config =>
      match notify config clock net with
      | None => None
      | Some (Go _, _, sent) => Some (Done, sent)
      | Some (Throw e, _, sent) => Some (Exit1 (handler e), sent)
      | Some (Quit why, _, sent) => Some (Exit1 why, sent)
      end
    end.

End Runtime.

(** A request that is answered, whatever the status. *)
Definition answered (r : reply) : bool :=
  match r with
  | Responded _ => true
  | Failed => false
  end.

(** What holds of every run of a stretch that starts on replies that
    satisfy [inv]: the replies that are left satisfy [inv] again, and
    [after] holds of the way the stretch ends and of the number of
    messages it posted. *)
Definition ends {A} (inv : list reply -> Prop)
    (after : step A -> nat -> Prop) (m : run A) : Prop :=
  forall net s net' sent,
    inv net -> m net = Some (s, net', sent) ->
    inv net' /\ after s (posts sent).

(** A stretch that posts nothing, raises only exceptions of [E] and
    does not exit. *)
Definition calm {A} (E : exn -> Prop) (s : step A) (n : nat) : Prop :=
  n = 0%nat
  /\ match s with
     | Go _ => True
     | Throw e => E e
     | Quit _ => False
     end.

(** The replies that [inv] admits are answers, not failures of the
    transport. *)
Definition all_answered (inv : list reply -> Prop) : Prop :=
  forall r net, inv (r :: net) -> answered r = true.

(** What holds after the choice of the calendar, after
    [send_daily_notification], after the block of the Monday and after the
    whole [try] block of [main]. *)
Definition after_calendar {A} (E : exn -> Prop) (s : step A) (n : nat)
    : Prop :=
  n = 0%nat
  /\ match s with
     | Go _ => True
     | Throw e => E e
     | Quit why => why = NoCalendarsFound
     end.

Definition after_daily {A} (s : step A) (n : nat) : Prop :=
  match s with
  | Go _ => n = 1%nat
  | Throw e =>
    (e = DiscordNotifierError /\ n = 1%nat) \/ (e = TypeError /\ n = 0%nat)
  | Quit _ => False
  end.

Definition after_weekly {A} (inv : list reply -> Prop) (E : exn -> Prop)
    (s : step A) (n : nat) : Prop :=
  match s with
  | Go _ => n = 1%nat
  | Throw e => E e /\ (n = 0%nat \/ ~ all_answered inv)
  | Quit _ => False
  end.

Definition after_monday_check {A} (inv : list reply -> Prop)
    (E : exn -> Prop) (monday : bool) (s : step A) (n : nat) : Prop :=
  if monday then after_weekly inv E s n
  else n = 0%nat /\ exists a, s = Go a.

Definition after_notify {A} (inv : list reply -> Prop) (E : exn -> Prop)
    (monday : bool) (s : step A) (n : nat) : Prop :=
  match s with
  | Go _ => n = if monday then 2%nat else 1%nat
  | Throw e =>
    (e = DiscordNotifierError /\ n = 1%nat)
    \/ (E e /\ (monday = false -> n = 0%nat)
        /\ (n = 2%nat -> ~ all_answered inv))
  | Quit why => why = NoCalendarsFound /\ n = 0%nat
  end.

(** What [main] says about the webhook when it ends: a run that succeeds
    has posted once, twice on a Monday; the message of the Discord
    handler means that exactly one message was posted; after any other
    end on a day that is no Monday nothing was posted. *)
Definition posted (monday : bool) (how : ending) (n : nat) : Prop :=
  match how with
  | Done => n = if monday then 2%nat else 1%nat
  | Exit1 DiscordError => n = 1%nat
  | _ => monday = false -> n = 0%nat
  end.

(** A complete environment with a calendar id, and the replies of a run
    that succeeds on a day that is no Monday: the sign-in, the two
    fetches and the webhook. *)
Definition full_env : gmap str str :=
  list_to_map [(text "TIMETREE_EMAIL", text "user@example.com");
               (text "TIMETREE_PASSWORD", text "secret");
               (text "TIMETREE_CALENDAR_ID", text "7");
               (text "DISCORD_WEBHOOK_URL", text "https://discord.example")].


Definition signed_in : reply :=
  Responded (mkresponse 200 {[text "_session_id" := text "abc"]} None).

Definition no_events : reply :=
  Responded (mkresponse 200 ∅ (Some (dict [item "events" (VList [])]))).

Definition delivered : reply := Responded (mkresponse 204 ∅ None).

Definition refused : reply := Responded (mkresponse 500 ∅ None).

(** Wednesday 4 November 2026 and Monday 2 November 2026, 07:00. *)
Definition wednesday_morning (tick : nat) : datetime := mk 2026 11 4 7 0 0 0.
Definition monday_morning (tick : nat) : datetime := mk 2026 11 2 7 0 0 0.

(** The requests of a run that succeeds on that Wednesday, and of one on
    that Monday whose weekly message the webhook refuses. *)
Definition wednesday_requests : list request :=
  Eval vm_compute in
    match main epoch_clock no_repr [] full_env wednesday_morning
            [signed_in; no_events; no_events; delivered] with
    | Some (_, sent) => sent
    | None => []
    end.

Definition monday_requests : list request :=
  Eval vm_compute in
    match main epoch_clock no_repr [] full_env monday_morning
            [signed_in; no_events; no_events; delivered; no_events;
             refused] with
    | Some (_, sent) => sent
    | None => []
    end.

(** A page with one timed event that starts 1000 ms after the epoch, and
    the event that a host whose clock always shows the epoch reads from
    it. *)
Definition epoch_page : reply :=
  Responded
    (mkresponse 200 ∅
       (Some (dict [item "events"
                      (VList [dict [item "id" (VInt 1);
                                    item "start_at" (VInt 1000)]])]))).

Definition epoch_event : event :=
  mkevent (VInt 1) (Some (VStr (text "Untitled"))) (VBool false) VNone VNone
    VNone (At (mk 1970 1 1 0 0 0 0)) Unset.

(** The same with an all-day event that ends 1000 ms after the epoch. *)
Definition epoch_all_day_page : reply :=
  Responded
    (mkresponse 200 ∅
       (Some (dict [item "events"
                      (VList [dict [item "id" (VInt 1);
                                    item "all_day" (VBool true);
                                    item "start_at" (VInt 1000);
                                    item "end_at" (VInt 2000)]])]))).

Definition epoch_all_day_event : event :=
  mkevent (VInt 1) (Some (VStr (text "Untitled"))) (VBool true) VNone VNone
    VNone (At (mk 1970 1 1 0 0 0 0)) (At (mk 1970 1 1 0 0 0 0)).

End Program.

(* ================================================================== *)
(** ** The fetch loop *)

Import Py DT Scraper Notifier Notions Examples.

Section Fetch.

Variable fromtimestamp : float -> outcome datetime.
Variable py_repr : pyval -> str.
Variable calendar_id : str.

Lemma recursive_call_failed (since : pyval) (r : reply) (rest : list reply) :
  call_failed r = true ->
  _get_events_recursive fromtimestamp py_repr calendar_id since (r :: rest)
  = Some (Return [], [continuation_url py_repr calendar_id since]).
Proof.
  unfold call_failed, continuation_url.
  destruct r as [|resp]; cbn [_get_events_recursive]; [reflexivity|].
  destruct (status_code resp =? 200); cbn [negb orb]; [|reflexivity].
  destruct (json resp); [discriminate|reflexivity].
Qed.

Lemma recursive_pages (pages : list page) :
  forall (since : pyval) (bad : reply) (rest : list reply),
  Forall (continues fromtimestamp) pages ->
  call_failed bad = true ->
  _get_events_recursive fromtimestamp py_repr calendar_id since
    (map page_reply pages ++ bad :: rest)
  = Some (Return (List.concat (map page_events pages)),
          map (continuation_url py_repr calendar_id)
            (since :: map page_since pages)).
Proof.
  induction pages as [|p pages IH]; intros since bad rest Hpages Hbad.
  - apply recursive_call_failed, Hbad.
  - inversion Hpages as [|? ? Hp Hrest]; subst.
    destruct Hp as (resp & data & Hr & Hstatus & Hjson & Hread).
    cbn [map app List.concat]. rewrite Hr.
    cbn [_get_events_recursive]. rewrite Hstatus, Hjson, Hread.
    cbn [Z.eqb Pos.eqb negb is_True].
    rewrite (IH (page_since p) bad rest Hrest Hbad).
    unfold continuation_url, swallow, try_except, bind. cbn [map].
    reflexivity.
Qed.

Lemma get_events_call_failed (r : reply) (rest : list reply) :
  call_failed r = true ->
  get_events fromtimestamp py_repr calendar_id (r :: rest)
  = Some (Raise TimeTreeScraperError, [sync_url calendar_id]).
Proof.
  unfold call_failed.
  destruct r as [|resp]; cbn [get_events]; [reflexivity|].
  destruct (status_code resp =? 200); cbn [negb orb]; [|reflexivity].
  destruct (json resp); [discriminate|reflexivity].
Qed.

Lemma get_events_pages (r0 : reply) (events0 : list event) (since0 : pyval)
    (pages : list page) (bad : reply) (rest : list reply) :
  delivers fromtimestamp r0 events0 (VBool true) since0 ->
  truthy since0 = true ->
  Forall (continues fromtimestamp) pages ->
  call_failed bad = true ->
  get_events fromtimestamp py_repr calendar_id
    (r0 :: map page_reply pages ++ bad :: rest)
  = Some (Return (events0 ++ List.concat (map page_events pages)),
          sync_url calendar_id
          :: map (continuation_url py_repr calendar_id)
               (since0 :: map page_since pages)).
Proof.
  intros (resp & data & Hr & Hstatus & Hjson & Hread) Hsince Hpages Hbad.
  rewrite Hr. cbn [get_events]. rewrite Hstatus, Hjson, Hread.
  cbn [Z.eqb Pos.eqb negb is_True andb]. rewrite Hsince.
  rewrite (recursive_pages pages since0 bad rest Hpages Hbad).
  unfold translate, try_except, bind. reflexivity.
Qed.

Lemma since_100 : text "?since=" ++ decimal 100 = text "?since=100".
Proof. vm_compute. reflexivity. Qed.

(** C1.  The failure policy of the fetch is asymmetric.  When the initial
    sync call fails (transport error, status other than 200, body that
    does not parse), [get_events] raises [TimeTreeScraperError].  When the
    initial call and any number of continuation calls succeed, each
    announcing a further chunk, and the next continuation call fails, then
    [get_events] raises nothing and returns exactly the events of the
    calls that succeeded, in order.  In particular a first call that
    delivers two events with [chunk = True] and [since = 100], followed by
    a failing call, yields those two events. *)
Theorem fetch_failure_policy :
  (forall (r : reply) (rest : list reply),
     call_failed r = true ->
     get_events fromtimestamp py_repr calendar_id (r :: rest)
     = Some (Raise TimeTreeScraperError, [sync_url calendar_id]))
  /\ (forall (r0 : reply) (events0 : list event) (since0 : pyval)
        (pages : list page) (bad : reply) (rest : list reply),
      delivers fromtimestamp r0 events0 (VBool true) since0 ->
      truthy since0 = true ->
      Forall (continues fromtimestamp) pages ->
      call_failed bad = true ->
      get_events fromtimestamp py_repr calendar_id
        (r0 :: map page_reply pages ++ bad :: rest)
      = Some (Return (events0 ++ List.concat (map page_events pages)),
              sync_url calendar_id
              :: map (continuation_url py_repr calendar_id)
                   (since0 :: map page_since pages)))
  /\ (forall (r0 : reply) (e1 e2 : event) (bad : reply) (rest : list reply),
      delivers fromtimestamp r0 [e1; e2] (VBool true) (VInt 100) ->
      call_failed bad = true ->
      get_events fromtimestamp py_repr calendar_id (r0 :: bad :: rest)
      = Some (Return [e1; e2],
              [sync_url calendar_id;
               sync_url calendar_id ++ text "?since=100"])).
Proof.
  split; [exact get_events_call_failed|].
  split; [exact get_events_pages|].
  intros r0 e1 e2 bad rest Hr0 Hbad.
  pose proof (get_events_pages r0 [e1; e2] (VInt 100) [] bad rest Hr0
                eq_refl (List.Forall_nil _) Hbad) as H.
  change (map page_reply [] ++ bad :: rest) with (bad :: rest) in H.
  rewrite H. unfold continuation_url.
  cbn [map List.concat format_value].
  rewrite since_100, app_nil_r. reflexivity.
Qed.

End Fetch.

Lemma fetch_failure_policy_witness :
  get_events epoch_clock no_repr (text "7") [ok first_page; Failed]
  = Some (Return [plain_event 1 "A"; plain_event 2 "B"],
          [sync_url (text "7"); sync_url (text "7") ++ text "?since=100"]).
Proof.
  apply (proj2 (proj2 (fetch_failure_policy epoch_clock no_repr (text "7")))).
  - exists (mkresponse 200 ∅ (Some first_page)), first_page.
    split; [reflexivity|]. split; [reflexivity|]. split; [reflexivity|].
    vm_compute. reflexivity.
  - reflexivity.
Defined.

(* ================================================================== *)
(** ** Continuation without a cursor *)

Section Continuation.

Variable fromtimestamp : float -> outcome datetime.
Variable py_repr : pyval -> str.

(** C6.  After a first page with [chunk = True] and [since = 100], a
    continuation page with [chunk = True] and no [since] still triggers a
    further call, with the cursor [None] in its URL; the first call, in
    contrast, stops when the cursor is missing. *)
Theorem continuation_ignores_missing_cursor :
  get_events fromtimestamp py_repr (text "7")
    [ok first_page; ok page_without_cursor; Failed]
  = Some (Return [plain_event 1 "A"; plain_event 2 "B"; third_event],
          [sync_url (text "7");
           sync_url (text "7") ++ text "?since=100";
           sync_url (text "7") ++ text "?since=None"])
  /\ get_events fromtimestamp py_repr (text "7")
       [ok page_without_cursor; Failed]
     = Some (Return [third_event], [sync_url (text "7")]).
Proof. split; vm_compute; reflexivity. Qed.

End Continuation.

(* ================================================================== *)
(** ** The date filter *)

Section Filter.

Variables start_date end_date : datetime.

Lemma in_range_spec (e : event) :
  in_range start_date end_date e = true
  <-> starts_within start_date end_date e
      \/ all_day_overlap start_date end_date e.
Proof.
  unfold in_range, starts_within, all_day_overlap.
  destruct (start e) as [| |s] eqn:Hs.
  - split; [discriminate|].
    intros [(s & H & _)|(_ & (s & H & _) & _)]; discriminate.
  - split; [discriminate|].
    intros [(s & H & _)|(_ & (s & H & _) & _)]; discriminate.
  - destruct (leb start_date s && ltb s end_date) eqn:Hin.
    + split; [|reflexivity]. intros _. left. exists s.
      apply andb_prop in Hin. tauto.
    + destruct (truthy (all_day e)) eqn:Hday; cbn [andb].
      * destruct (leb s end_date) eqn:Hle.
        -- destruct (end_ e) as [| |d] eqn:He.
           ++ split; [discriminate|].
              intros [(s' & H & H1 & H2)|(_ & _ & (d & H & _))];
                [|discriminate].
              injection H as <-. rewrite H1, H2 in Hin. discriminate.
           ++ split; [discriminate|].
              intros [(s' & H & H1 & H2)|(_ & _ & (d & H & _))];
                [|discriminate].
              injection H as <-. rewrite H1, H2 in Hin. discriminate.
           ++ split.
              ** intros Hd. right. split; [reflexivity|]. split.
                 --- exists s. split; [reflexivity|exact Hle].
                 --- exists d. split; [reflexivity|exact Hd].
              ** intros [(s' & H & H1 & H2)|(_ & _ & (d' & H & Hd))].
                 --- injection H as <-. rewrite H1, H2 in Hin. discriminate.
                 --- injection H as <-. exact Hd.
        -- split; [discriminate|].
           intros [(s' & H & H1 & H2)|(_ & (s' & H & H1) & _)].
           ++ injection H as <-. rewrite H1, H2 in Hin. discriminate.
           ++ injection H as <-. rewrite H1 in Hle. discriminate.
      * split; [discriminate|].
        intros [(s' & H & H1 & H2)|(Hd & _)]; [|discriminate].
        injection H as <-. rewrite H1, H2 in Hin. discriminate.
Qed.

(** C2.  An event is in the result of the date filter exactly when it is
    in the input and either its start lies in the window (start of the
    window included, end excluded), or it is flagged all-day, has a start
    not after the end of the window and has an end strictly after the
    start of the window.  An event without a start is never in the
    result. *)
Theorem filter_membership (all_events : list event) (e : event) :
  (In e (events_in_range start_date end_date all_events)
   <-> In e all_events
       /\ (starts_within start_date end_date e
           \/ all_day_overlap start_date end_date e))
  /\ (start e = Unset \/ start e = IsNone ->
      ~ In e (events_in_range start_date end_date all_events)).
Proof.
  unfold events_in_range. split.
  - rewrite filter_In, in_range_spec. reflexivity.
  - intros Hnone Hin. apply filter_In in Hin as [_ Hin].
    unfold in_range in Hin.
    destruct Hnone as [H|H]; rewrite H in Hin; discriminate.
Qed.

(** C9.  Filtering twice with the same window gives what filtering once
    gives. *)
Theorem filter_idempotent (all_events : list event) :
  events_in_range start_date end_date
    (events_in_range start_date end_date all_events)
  = events_in_range start_date end_date all_events.
Proof.
  unfold events_in_range.
  induction all_events as [|e rest IH]; [reflexivity|].
  cbn [List.filter].
  destruct (in_range start_date end_date e) eqn:He; [|exact IH].
  cbn [List.filter]. rewrite He, IH. reflexivity.
Qed.

End Filter.

(** The all-day event that starts on Monday and ends on Wednesday is kept
    for the window of Tuesday, by the second rule. *)
Lemma filter_membership_witness :
  In two_day_event (events_in_range tuesday wednesday [two_day_event]).
Proof.
  apply (proj1 (filter_membership tuesday wednesday [two_day_event]
                  two_day_event)).
  split; [left; reflexivity|].
  right. split; [reflexivity|]. split.
  - exists (mk 2026 11 2 0 0 0 0). split; reflexivity.
  - exists (mk 2026 11 4 0 0 0 0). split; reflexivity.
Defined.

(* ================================================================== *)
(** ** Sign-in *)

Section Login.

Variable self : scraper.

Lemma login_failed : fst (login self Failed) = Raise LoginError.
Proof. reflexivity. Qed.

Lemma login_bad_status (resp : response) :
  status_code resp <> 200 ->
  fst (login self (Responded resp)) = Raise LoginError.
Proof.
  intros Hs. unfold login.
  destruct (status_code resp =? 200) eqn:E; [|reflexivity].
  apply Z.eqb_eq in E. contradiction.
Qed.

Lemma login_no_cookie (resp : response) :
  status_code resp = 200 ->
  cookies resp !! text "_session_id" = None ->
  fst (login self (Responded resp)) = Raise LoginError.
Proof.
  intros Hs Hc. unfold login. rewrite Hs, Hc. reflexivity.
Qed.

Lemma login_success (resp : response) (c : N) (tok : str) :
  status_code resp = 200 ->
  cookies resp !! text "_session_id" = Some (c :: tok) ->
  fst (login self (Responded resp)) = Return tt
  /\ session_id (snd (login self (Responded resp))) = Some (c :: tok).
Proof.
  intros Hs Hc. unfold login. rewrite Hs, Hc. split; reflexivity.
Qed.

(** C5.  [login] returns only for a response with status 200 that carries
    a session cookie (which it then stores).  A response with status 200
    and no session cookie makes it raise [LoginError], and so do a
    response with any other status and a transport error. *)
Theorem login_needs_status_and_cookie (net : reply) :
  (fst (login self net) = Return tt ->
   exists resp tok,
     net = Responded resp /\ status_code resp = 200
     /\ cookies resp !! text "_session_id" = Some tok /\ tok <> []
     /\ session_id (snd (login self net)) = Some tok)
  /\ (forall resp, net = Responded resp -> status_code resp = 200 ->
      cookies resp !! text "_session_id" = None ->
      fst (login self net) = Raise LoginError)
  /\ (forall resp, net = Responded resp -> status_code resp <> 200 ->
      fst (login self net) = Raise LoginError)
  /\ (net = Failed -> fst (login self net) = Raise LoginError).
Proof.
  split; [|split; [|split]].
  - destruct net as [|resp]; [discriminate|].
    unfold login.
    destruct (status_code resp =? 200) eqn:E; [|discriminate].
    apply Z.eqb_eq in E.
    destruct (cookies resp !! text "_session_id") as [[|c tok]|] eqn:Hc;
      try discriminate.
    intros _. exists resp, (c :: tok).
    repeat split; try assumption; discriminate.
  - intros resp -> Hs Hc. exact (login_no_cookie resp Hs Hc).
  - intros resp -> Hs. exact (login_bad_status resp Hs).
  - intros ->. exact login_failed.
Qed.

End Login.

Lemma login_needs_status_and_cookie_witness :
  fst (login fresh_scraper (Responded (mkresponse 200 ∅ None)))
  = Raise LoginError.
Proof.
  apply (proj1 (proj2 (login_needs_status_and_cookie fresh_scraper
                         (Responded (mkresponse 200 ∅ None))))
           (mkresponse 200 ∅ None)).
  - reflexivity.
  - reflexivity.
  - vm_compute. reflexivity.
Defined.

(* ================================================================== *)
(** ** Normalization of the timestamps *)

Section Timestamps.

Variable fromtimestamp : float -> outcome datetime.
Variable py_repr : pyval -> str.

(** A start that is a non-empty string is recorded as [None]. *)
Lemma text_start_is_none :
  event_data fromtimestamp text_start_record
  = Return (mkevent (VInt 1) (Some (VStr (text "A"))) (VBool false) VNone
              VNone VNone IsNone Unset).
Proof. vm_compute. reflexivity. Qed.

(** The timestamp block on a record [m], case by case: a value of 0 is
    skipped like a missing one; a non-empty string, list or dict is
    recorded as [None]; an int too large for the division raises. *)
Lemma zero_timestamp_is_unset (m : gmap str pyval) (key : string) :
  m !! text key = Some (VInt 0) \/ m !! text key = None ->
  read_timestamp fromtimestamp (VDict m) key = Return Unset.
Proof.
  unfold read_timestamp, get. cbn [bind].
  intros [H|H]; rewrite H; reflexivity.
Qed.

Lemma non_numeric_timestamp_is_none (m : gmap str pyval) (key : string)
    (raw : pyval) :
  m !! text key = Some raw ->
  truthy raw = true ->
  match raw with VStr _ | VList _ | VDict _ => True | _ => False end ->
  read_timestamp fromtimestamp (VDict m) key = Return IsNone.
Proof.
  unfold read_timestamp, get. cbn [bind].
  intros H Ht Hk. rewrite H. cbn [default from_option id]. rewrite Ht.
  destruct raw; try contradiction; reflexivity.
Qed.

Lemma overflowing_timestamp_raises (m : gmap str pyval) (key : string)
    (z : Z) :
  m !! text key = Some (VInt z) ->
  z <> 0 ->
  int_truediv z 1000 = Raise OverflowError ->
  read_timestamp fromtimestamp (VDict m) key = Raise OverflowError.
Proof.
  unfold read_timestamp, get. cbn [bind].
  intros H Hz Ho. rewrite H. cbn [default from_option id truthy].
  destruct (Z.eqb_spec z 0) as [->|_]; [contradiction|].
  cbn [negb div1000]. rewrite Ho. reflexivity.
Qed.

Lemma converted_timestamp (m : gmap str pyval) (key : string) (z : Z)
    (seconds : float) (d : datetime) :
  m !! text key = Some (VInt z) ->
  z <> 0 ->
  int_truediv z 1000 = Return seconds ->
  fromtimestamp seconds = Return d ->
  read_timestamp fromtimestamp (VDict m) key = Return (At d).
Proof.
  unfold read_timestamp, get. cbn [bind].
  intros H Hz Hs Hd. rewrite H. cbn [default from_option id truthy].
  destruct (Z.eqb_spec z 0) as [->|_]; [contradiction|].
  cbn [negb div1000]. rewrite Hs. cbn [bind]. rewrite Hd. reflexivity.
Qed.

(** C4.  A raw record with [start_at = 0] is normalized to an event with
    no start at all, exactly like a record without [start_at]: the test
    [if ev.get("start_at")] takes 0 for a missing value, so the epoch is
    never converted. *)
Theorem epoch_start_is_dropped :
  event_data fromtimestamp epoch_record
  = Return (mkevent (VInt 1) (Some (VStr (text "A"))) (VBool false) VNone
              VNone VNone Unset Unset)
  /\ event_data fromtimestamp startless_record
     = Return (mkevent (VInt 1) (Some (VStr (text "A"))) (VBool false) VNone
                 VNone VNone Unset Unset).
Proof. split; vm_compute; reflexivity. Qed.

(** C7.  A start of 10^400 milliseconds makes the division by 1000 raise
    [OverflowError], which neither the handler of the timestamp block nor
    the handlers of [get_events] catch: the whole fetch fails, the
    well-formed first record included. *)
Theorem overflowing_timestamp_fails_batch (rest : list reply) :
  get_events fromtimestamp py_repr (text "7") (ok overflow_page :: rest)
  = Some (Raise OverflowError, [sync_url (text "7")]).
Proof. vm_compute. reflexivity. Qed.

End Timestamps.

(** A start that converts: 1000 ms after the epoch. *)
Lemma start_is_converted :
  event_data epoch_clock
    (dict [item "id" (VInt 1); item "start_at" (VInt 1000)])
  = Return (mkevent (VInt 1) (Some (VStr (text "Untitled"))) (VBool false)
              VNone VNone VNone (At (mk 1970 1 1 0 0 0 0)) Unset).
Proof. vm_compute. reflexivity. Qed.

(* ================================================================== *)
(** ** The limit on field values *)

Lemma length_ellipsis : length (text "...") = 3%nat.
Proof. vm_compute. reflexivity. Qed.

Lemma limit_long (fv : str) :
  (1024 < length fv)%nat ->
  limit_field_value fv = take 1020 fv ++ text "..."
  /\ length (limit_field_value fv) = 1023%nat.
Proof.
  intros Hlen. unfold limit_field_value.
  destruct (Nat.ltb_spec 1024 (length fv)) as [_|H]; [|lia].
  split; [reflexivity|].
  rewrite length_app, length_take, length_ellipsis. lia.
Qed.

Lemma limit_short (fv : str) :
  (length fv <= 1024)%nat -> limit_field_value fv = fv.
Proof.
  intros Hlen. unfold limit_field_value.
  destruct (Nat.ltb_spec 1024 (length fv)) as [H|_]; [lia|reflexivity].
Qed.

Lemma render_field_value_inv (py_repr : pyval -> str) (events : list event)
    (v : str) :
  render_field_value py_repr events = Return v ->
  exists lines,
    mapM (_format_event py_repr) events = Return lines
    /\ v = limit_field_value (join newline lines).
Proof.
  unfold render_field_value.
  destruct (mapM (_format_event py_repr) events) as [lines|e];
    cbn [bind]; [|discriminate].
  intros [= <-]. exists lines. split; reflexivity.
Qed.

(** C3, as amended.  The value of a field is the rendered text of its
    events, unchanged when that text has at most 1024 characters; a longer
    text is replaced by its first 1020 characters followed by ["..."],
    which makes 1023 characters. *)
Theorem field_value_limit (py_repr : pyval -> str) (events : list event)
    (v : str) :
  render_field_value py_repr events = Return v ->
  exists lines,
    mapM (_format_event py_repr) events = Return lines
    /\ ((1024 < length (join newline lines))%nat ->
        v = take 1020 (join newline lines) ++ text "..."
        /\ length v = 1023%nat)
    /\ ((length (join newline lines) <= 1024)%nat ->
        v = join newline lines).
Proof.
  intros H. apply render_field_value_inv in H as (lines & Hl & ->).
  exists lines. split; [exact Hl|]. split.
  - apply limit_long.
  - apply limit_short.
Qed.

Lemma field_value_limit_witness :
  exists lines,
    mapM (_format_event no_repr) [long_event] = Return lines
    /\ ((1024 < length (join newline lines))%nat ->
        take 1020 long_line ++ text "..."
        = take 1020 (join newline lines) ++ text "..."
        /\ length (take 1020 long_line ++ text "...") = 1023%nat)
    /\ ((length (join newline lines) <= 1024)%nat ->
        take 1020 long_line ++ text "..." = join newline lines).
Proof.
  apply (field_value_limit no_repr [long_event]).
  vm_compute. reflexivity.
Defined.

(** C3, as stated, fails: a rendered text of 1102 characters is cut to
    1023 characters, not 1024. *)
Lemma field_value_is_not_1024 :
  _format_event no_repr long_event = Return long_line
  /\ (1024 < length long_line)%nat
  /\ render_field_value no_repr [long_event]
     = Return (take 1020 long_line ++ text "...")
  /\ length (take 1020 long_line ++ text "...") <> 1024%nat.
Proof.
  split; [vm_compute; reflexivity|].
  split; [vm_compute; lia|].
  split; [vm_compute; reflexivity|].
  vm_compute. lia.
Qed.

(* ================================================================== *)
(** ** Rendering and delivery *)

Section Rendering.

Variable py_repr : pyval -> str.

Lemma format_event_total (e : event) :
  has_text_title e = true ->
  exists line, _format_event py_repr e = Return line.
Proof.
  unfold has_text_title, _format_event.
  destruct (title e) as [[]|]; try discriminate; intros _;
    cbn [default from_option id];
    destruct (truthy (all_day e)), (start e), (end_ e);
    cbn [str_plus bind]; eexists; reflexivity.
Qed.

Lemma mapM_total {A B} (f : A -> outcome B) (l : list A) :
  (forall a, In a l -> exists b, f a = Return b) ->
  exists bs, mapM f l = Return bs.
Proof.
  induction l as [|a l IH]; intros H.
  - exists []. reflexivity.
  - destruct (H a (or_introl eq_refl)) as [b Hb].
    destruct IH as [bs Hbs]; [intros x Hx; apply H; right; exact Hx|].
    exists (b :: bs). cbn [mapM]. rewrite Hb, Hbs. reflexivity.
Qed.

Lemma render_total (events : list event) :
  forallb has_text_title events = true ->
  exists lines,
    mapM (_format_event py_repr) events = Return lines
    /\ render_field_value py_repr events
       = Return (limit_field_value (join newline lines)).
Proof.
  intros H.
  destruct (mapM_total (_format_event py_repr) events) as [lines Hl].
  - intros e He. apply format_event_total.
    exact (proj1 (forallb_forall _ _) H e He).
  - exists lines. split; [exact Hl|].
    unfold render_field_value. rewrite Hl. reflexivity.
Qed.

Lemma daily_embed_block (heading : str) (events : list event)
    (current_date : datetime) :
  forallb has_text_title events = true ->
  exists b,
    daily_embed py_repr heading events current_date = Return b
    /\ embed_title b = heading
    /\ block_for py_repr events b.
Proof.
  intros H. destruct events as [|e rest].
  - eexists. split; [reflexivity|]. split; [reflexivity|].
    repeat split.
  - destruct (render_total (e :: rest) H) as (lines & Hl & Hr).
    unfold daily_embed. rewrite Hr. cbn [bind].
    eexists. split; [reflexivity|]. split; [reflexivity|].
    split; [reflexivity|]. split; [reflexivity|].
    exists lines. split; [exact Hl|reflexivity].
Qed.

Lemma daily_embeds_blocks (today_events tomorrow_events : list event)
    (current_date tomorrow_date : datetime) :
  forallb has_text_title today_events = true ->
  forallb has_text_title tomorrow_events = true ->
  exists b1 b2,
    _create_daily_embeds py_repr today_events tomorrow_events
      current_date tomorrow_date = Return [b1; b2]
    /\ embed_title b1 = text "📅 今日の予定 - " ++ _format_date current_date
    /\ embed_title b2 = text "📅 明日の予定 - " ++ _format_date tomorrow_date
    /\ block_for py_repr today_events b1
    /\ block_for py_repr tomorrow_events b2.
Proof.
  intros H1 H2.
  destruct (daily_embed_block
              (text "📅 今日の予定 - " ++ _format_date current_date)
              today_events current_date H1) as (b1 & Hb1 & Ht1 & Hk1).
  destruct (daily_embed_block
              (text "📅 明日の予定 - " ++ _format_date tomorrow_date)
              tomorrow_events current_date H2) as (b2 & Hb2 & Ht2 & Hk2).
  exists b1, b2. unfold _create_daily_embeds.
  rewrite Hb1. cbn [bind]. rewrite Hb2. cbn [bind]. tauto.
Qed.



End Rendering.


Section Delivery.

Variable py_repr : pyval -> str.

Lemma post_outcome (body : payload) (net : reply) :
  post body net = Return true \/ post body net = Raise DiscordNotifierError.
Proof.
  unfold post. destruct net as [|resp].
  - right. reflexivity.
  - destruct ((400 <=? status_code resp) && (status_code resp <? 600)).
    + right. reflexivity.
    + left. reflexivity.
Qed.



(** The events of the buckets of the weekly grouping are events of the
    input. *)
Lemma in_insert_sorted (x y : event) (l : list event) :
  In y (insert_sorted x l) -> y = x \/ In y l.
Proof.
  induction l as [|z l IH]; cbn [insert_sorted].
  - intros [<-|[]]. left. reflexivity.
  - destruct (ltb (sort_key x) (sort_key z)).
    + intros [<-|H]; [left; reflexivity|right; exact H].
    + intros [<-|H]; [right; left; reflexivity|].
      destruct (IH H) as [->|H']; [left; reflexivity|right; right; exact H'].
Qed.

Lemma in_fold_insert_sorted (events acc : list event) (y : event) :
  In y (fold_left (fun acc e => insert_sorted e acc) events acc) ->
  In y events \/ In y acc.
Proof.
  revert acc. induction events as [|e rest IH]; intros acc; cbn [fold_left].
  - intros H. right. exact H.
  - intros H. destruct (IH _ H) as [H'|H'].
    + left. right. exact H'.
    + destruct (in_insert_sorted _ _ _ H') as [->|H''].
      * left. left. reflexivity.
      * right. exact H''.
Qed.

Lemma in_sorted_events (events : list event) (y : event) :
  In y (sorted_events events) -> In y events.
Proof.
  intros H. destruct (in_fold_insert_sorted events [] y H) as [H'|[]].
  exact H'.
Qed.

Lemma bucket_append_all (P : event -> Prop) (k : date) (ev : event)
    (buckets : list (date * list event)) :
  P ev -> buckets_all P buckets ->
  buckets_all P (bucket_append k ev buckets).
Proof.
  intros Hev. induction buckets as [|[k' evs] rest IH]; intros Hall b y.
  - cbn [bucket_append]. intros [<-|[]] [<-|[]]. exact Hev.
  - cbn [bucket_append]. destruct (date_eqb k' k).
    + intros [<-|Hb] Hy.
      * cbn [snd] in Hy. apply in_app_or in Hy as [Hy|[<-|[]]].
        -- exact (Hall (k', evs) y (or_introl eq_refl) Hy).
        -- exact Hev.
      * exact (Hall b y (or_intror Hb) Hy).
    + intros [<-|Hb] Hy.
      * exact (Hall (k', evs) y (or_introl eq_refl) Hy).
      * apply (IH (fun b' y' Hb' => Hall b' y' (or_intror Hb')) b y Hb Hy).
Qed.

Lemma group_by_date_all (P : event -> Prop) (clock : nat -> datetime)
    (events : list event) :
  forall (tick : nat) (buckets : list (date * list event)),
  (forall e, In e events -> P e) -> buckets_all P buckets ->
  buckets_all P (group_by_date clock tick events buckets).
Proof.
  induction events as [|e rest IH]; intros tick buckets Hev Hall.
  - exact Hall.
  - cbn [group_by_date].
    destruct (start e); apply IH;
      try (intros x Hx; apply Hev; right; exact Hx);
      apply bucket_append_all; try exact Hall;
      apply Hev; left; reflexivity.
Qed.

Lemma in_insert_bucket (b c : date * list event)
    (l : list (date * list event)) :
  In c (insert_bucket b l) -> c = b \/ In c l.
Proof.
  induction l as [|z l IH]; cbn [insert_bucket].
  - intros [<-|[]]. left. reflexivity.
  - destruct (date_ltb (fst b) (fst z)).
    + intros [<-|H]; [left; reflexivity|right; exact H].
    + intros [<-|H]; [right; left; reflexivity|].
      destruct (IH H) as [->|H']; [left; reflexivity|right; right; exact H'].
Qed.

Lemma in_sorted_buckets (buckets : list (date * list event))
    (c : date * list event) :
  In c (sorted_buckets buckets) -> In c buckets.
Proof.
  unfold sorted_buckets.
  assert (forall acc,
            In c (fold_left (fun acc b => insert_bucket b acc) buckets acc)
            -> In c buckets \/ In c acc) as H.
  { induction buckets as [|b rest IH]; intros acc; cbn [fold_left].
    - intros H. right. exact H.
    - intros H. destruct (IH _ H) as [H'|H'].
      + left. right. exact H'.
      + destruct (in_insert_bucket _ _ _ H') as [->|H''].
        * left. left. reflexivity.
        * right. exact H''. }
  intros Hc. destruct (H [] Hc) as [H'|[]]. exact H'.
Qed.

Lemma create_embeds_total (clock : nat -> datetime) (events : list event) :
  forallb has_text_title events = true ->
  exists embeds, _create_embeds py_repr clock events = Return embeds.
Proof.
  intros H. destruct events as [|e rest]; [exists []; reflexivity|].
  unfold _create_embeds.
  destruct (mapM_total (date_field py_repr)
              (sorted_buckets
                 (group_by_date clock 1 (sorted_events (e :: rest)) [])))
    as [fs Hfs].
  - intros b Hb. apply in_sorted_buckets in Hb.
    destruct (render_total py_repr (snd b)) as (lines & _ & Hr).
    + apply forallb_forall. intros y Hy.
      apply (group_by_date_all (fun y => has_text_title y = true) clock
               (sorted_events (e :: rest)) 1%nat [] ) with (b := b);
        try assumption.
      * intros x Hx. apply in_sorted_events in Hx.
        exact (proj1 (forallb_forall _ _) H x Hx).
      * intros b' y' [].
    + unfold date_field. rewrite Hr. cbn [bind]. eexists. reflexivity.
  - rewrite Hfs. cbn [bind]. eexists. reflexivity.
Qed.

End Delivery.

(** For a title that is [None] the concatenation of [_format_event]
    raises [TypeError], before any request is made. *)
Lemma untitled_event_is_not_rendered (net : reply) :
  send_daily_notification no_repr [untitled_event] []
    (mk 2026 11 4 7 0 0 0) (mk 2026 11 5 7 0 0 0) net = Raise TypeError.
Proof. vm_compute. reflexivity. Qed.

(* ================================================================== *)
(** ** More on the date filter *)

Import More.

Lemma lex_refl (a : list Z) : lex a a = Eq.
Proof.
  induction a as [|x a IH]; [reflexivity|].
  cbn [lex]. rewrite Z.compare_refl. exact IH.
Qed.

Lemma lex_antisym (a : list Z) : forall b, lex b a = CompOpp (lex a b).
Proof.
  induction a as [|x a IH]; intros [|y b]; try reflexivity.
  cbn [lex]. rewrite (Z.compare_antisym x y).
  destruct (x ?= y); cbn [CompOpp]; [apply IH|reflexivity|reflexivity].
Qed.

Lemma leb_refl (d : datetime) : leb d d = true.
Proof. unfold leb, compare. rewrite lex_refl. reflexivity. Qed.

Lemma ltb_not_leb (a b : datetime) : ltb a b = true -> leb b a = false.
Proof.
  unfold ltb, leb, compare. rewrite (lex_antisym (fields a) (fields b)).
  destruct (lex (fields a) (fields b)); cbn [CompOpp];
    [discriminate|reflexivity|discriminate].
Qed.

(** X1.  The date filter returns a subsequence of its input: it keeps the
    order of the events and neither repeats nor invents one. *)
Theorem filter_is_subsequence (start_date end_date : datetime)
    (all_events : list event) :
  sublist (events_in_range start_date end_date all_events) all_events.
Proof.
  unfold events_in_range.
  induction all_events as [|e rest IH]; cbn [List.filter].
  - constructor.
  - destruct (in_range start_date end_date e).
    + apply sublist_skip. exact IH.
    + apply sublist_cons. exact IH.
Qed.

(** X2.  For an event that is not flagged all-day only the start counts:
    it is kept exactly when its start lies in the window, whatever its
    end is.  A timed event that starts before the window and ends inside
    it is dropped. *)
Theorem timed_event_kept_by_start_only (start_date end_date : datetime)
    (e : event) :
  truthy (all_day e) = false ->
  in_range start_date end_date e = true
  <-> starts_within start_date end_date e.
Proof.
  intros Hday. rewrite in_range_spec. split; [|intros H; left; exact H].
  intros [H|(Ht & _)]; [exact H|].
  rewrite Hday in Ht. discriminate.
Qed.

Lemma timed_event_kept_by_start_only_witness :
  in_range tuesday wednesday late_event = true
  <-> starts_within tuesday wednesday late_event.
Proof.
  apply (timed_event_kept_by_start_only tuesday wednesday late_event).
  reflexivity.
Defined.

(** X3.  The second rule compares the start with the end of the window by
    [<=]: an all-day event that starts exactly at the end of the window
    (the midnight that opens the next day) is kept, provided it has an end
    after the start of the window. *)
Theorem all_day_event_at_window_end_is_kept (start_date end_date : datetime)
    (e : event) (d : datetime) :
  truthy (all_day e) = true ->
  start e = At end_date ->
  end_ e = At d ->
  ltb start_date d = true ->
  in_range start_date end_date e = true.
Proof.
  intros Hday Hs He Hd. unfold in_range. rewrite Hs, He, Hday, Hd.
  rewrite leb_refl.
  destruct (leb start_date end_date && ltb end_date end_date); reflexivity.
Qed.

Lemma all_day_event_at_window_end_is_kept_witness :
  in_range tuesday wednesday wednesday_event = true.
Proof.
  apply (all_day_event_at_window_end_is_kept tuesday wednesday
           wednesday_event (mk 2026 11 5 0 0 0 0)); reflexivity.
Defined.

(** X4.  Two windows that follow each other share no timed event: an event
    that is not flagged all-day and is kept for the first window is
    dropped for the second. *)
Theorem timed_event_in_one_window_only (a b c : datetime) (e : event) :
  truthy (all_day e) = false ->
  in_range a b e = true ->
  in_range b c e = false.
Proof.
  intros Hday Hin.
  apply in_range_spec in Hin as [(s & Hs & _ & Hlt)|(Ht & _)];
    [|rewrite Hday in Ht; discriminate].
  unfold in_range. rewrite Hs, Hday.
  rewrite (ltb_not_leb s b Hlt). reflexivity.
Qed.

Lemma timed_event_in_one_window_only_witness :
  in_range (mk 2026 11 3 0 0 0 0) (mk 2026 11 4 0 0 0 0) late_event = false.
Proof.
  apply (timed_event_in_one_window_only (mk 2026 11 2 0 0 0 0)
           (mk 2026 11 3 0 0 0 0) (mk 2026 11 4 0 0 0 0) late_event);
    reflexivity.
Defined.

(* ================================================================== *)
(** ** More on the calendar listing *)

Section Listing.

Variable fromtimestamp : float -> outcome datetime.
Variable py_repr : pyval -> str.

Lemma calendar_entry_dict (d : gmap str pyval) :
  calendar_entry py_repr (VDict d)
  = Return (mkcalendar (format_value py_repr (default VNone (d !! text "id")))
              (default VNone (d !! text "name"))).
Proof. unfold calendar_entry, get. cbn [bind]. reflexivity. Qed.

Lemma calendar_entry_raises (cal : pyval) (e : exn) :
  calendar_entry py_repr cal = Raise e -> e = AttributeError.
Proof.
  unfold calendar_entry, get.
  destruct cal; cbn [bind]; intros H; try discriminate H;
    injection H as <-; reflexivity.
Qed.

Lemma mapM_map {A B C} (f : B -> outcome C) (g : A -> B) (h : A -> C)
    (l : list A) :
  (forall a, f (g a) = Return (h a)) ->
  mapM f (map g l) = Return (map h l).
Proof.
  intros H. induction l as [|a l IH]; [reflexivity|].
  cbn [map mapM]. rewrite H, IH. reflexivity.
Qed.

Lemma mapM_raises_in {A B} (f : A -> outcome B) (P : exn -> Prop)
    (l : list A) (e : exn) :
  (forall a e', In a l -> f a = Raise e' -> P e') ->
  mapM f l = Raise e -> P e.
Proof.
  induction l as [|a l IH]; cbn [mapM]; intros H; [discriminate|].
  destruct (f a) as [b|e'] eqn:Ha; cbn [bind].
  - destruct (mapM f l) as [bs|e''] eqn:Hl; cbn [bind]; [discriminate|].
    intros [= <-]. apply IH; [|reflexivity].
    intros x e' Hx. apply H. right. exact Hx.
  - intros [= <-]. apply (H a e'); [left; reflexivity|exact Ha].
Qed.

(** The body of [get_calendars] after [response.json()]. *)
Lemma listing_raises (data : pyval) (e : exn) :
  (cals <- get_default data "calendars" (VList []) ;;
   items <- iterate cals ;;
   mapM (calendar_entry py_repr) items) = Raise e ->
  e = AttributeError \/ e = TypeError.
Proof.
  unfold get_default. destruct data; cbn [bind];
    try (intros [= <-]; left; reflexivity).
  destruct (default (VList []) (m !! text "calendars")) as [| | | | |l|d];
    cbn [iterate bind]; try (intros [= <-]; right; reflexivity).
  all: intros H; left; revert H;
    apply (mapM_raises_in _ (fun e => e = AttributeError));
    intros a e' _; apply calendar_entry_raises.
Qed.

Lemma get_calendars_call_failed (r : reply) :
  call_failed r = true ->
  get_calendars py_repr r = Raise TimeTreeScraperError.
Proof.
  unfold get_calendars, call_failed. destruct r as [|resp]; [reflexivity|].
  destruct (status_code resp =? 200); cbn [negb orb]; [|reflexivity].
  destruct (json resp); [discriminate|reflexivity].
Qed.

Lemma get_calendars_parsed (r : reply) (e : exn) :
  call_failed r = false ->
  get_calendars py_repr r = Raise e ->
  e = AttributeError \/ e = TypeError.
Proof.
  unfold call_failed, get_calendars.
  destruct r as [|resp]; [discriminate|].
  destruct (status_code resp =? 200); cbn [negb orb]; [|discriminate].
  destruct (json resp) as [data|]; [|discriminate].
  intros _. pose proof (listing_raises data) as Hb.
  destruct (cals <- get_default data "calendars" (VList []) ;;
            items <- iterate cals ;;
            mapM (calendar_entry py_repr) items) as [cals|e0];
    unfold try_except; [discriminate|].
  destruct (Hb e0 eq_refl) as [-> | ->]; cbn [existsb exn_eqb orb];
    intros [= <-]; [left|right]; reflexivity.
Qed.

Lemma get_calendars_raises (r : reply) (e : exn) :
  get_calendars py_repr r = Raise e ->
  e = TimeTreeScraperError \/ e = AttributeError \/ e = TypeError.
Proof.
  destruct (call_failed r) eqn:Hf.
  - rewrite (get_calendars_call_failed r Hf). intros [= <-]. left.
    reflexivity.
  - intros H. right. exact (get_calendars_parsed r e Hf H).
Qed.

(** X5.  [get_calendars] raises [TimeTreeScraperError] exactly when the
    call fails (transport error, status other than 200, body that does not
    parse).  A body that parses but has not the expected shape is not
    translated: the only other classes that come out are [AttributeError]
    and [TypeError]. *)
Theorem get_calendars_error_classes (r : reply) :
  (get_calendars py_repr r = Raise TimeTreeScraperError
   <-> call_failed r = true)
  /\ (forall e,
        get_calendars py_repr r = Raise e ->
        e = TimeTreeScraperError \/ e = AttributeError \/ e = TypeError).
Proof.
  split; [|exact (get_calendars_raises r)]. split.
  - intros H. destruct (call_failed r) eqn:Hf; [reflexivity|].
    destruct (get_calendars_parsed r _ Hf H); discriminate.
  - apply get_calendars_call_failed.
Qed.

(** X6.  For a listing whose entries are objects, [get_calendars] returns
    one calendar per entry, in the order of the listing, with the id
    turned into a string and the name as it is.  An entry without an id
    gets the id ["None"]. *)
Theorem get_calendars_lists_every_entry (resp : response)
    (m : gmap str pyval) (entries : list (gmap str pyval)) :
  status_code resp = 200 ->
  json resp = Some (VDict m) ->
  m !! text "calendars" = Some (VList (map VDict entries)) ->
  get_calendars py_repr (Responded resp)
  = Return
      (map (fun d =>
              mkcalendar (format_value py_repr (default VNone (d !! text "id")))
                (default VNone (d !! text "name")))
         entries).
Proof.
  intros Hs Hj Hc. unfold get_calendars. rewrite Hs, Hj.
  cbn [Z.eqb Pos.eqb negb]. unfold get_default. cbn [bind]. rewrite Hc.
  cbn [default from_option id iterate bind].
  rewrite (mapM_map (calendar_entry py_repr) VDict _ entries
             calendar_entry_dict).
  reflexivity.
Qed.

(** X7.  Without a calendar id ([None] or the empty string),
    [get_upcoming_events] lists the calendars first.  A failed listing
    raises [TimeTreeScraperError] and a listing without calendars raises
    [CalendarNotFoundError]; in both cases whatever the server would
    answer next plays no role. *)
Theorem upcoming_events_without_calendar (calendar_id : option str)
    (days : Z) (now : datetime) (r : reply) (rest : list reply) :
  calendar_id = None \/ calendar_id = Some [] ->
  (call_failed r = true ->
   get_upcoming_events fromtimestamp py_repr calendar_id days now (r :: rest)
   = Some (Raise TimeTreeScraperError))
  /\ (forall resp m,
        r = Responded resp -> status_code resp = 200 ->
        json resp = Some (VDict m) ->
        m !! text "calendars" = None
        \/ m !! text "calendars" = Some (VList []) ->
        get_upcoming_events fromtimestamp py_repr calendar_id days now
          (r :: rest)
        = Some (Raise CalendarNotFoundError)).
Proof.
  intros Hid. split.
  - intros Hf. apply get_calendars_call_failed in Hf.
    unfold get_upcoming_events.
    destruct Hid as [-> | ->]; rewrite Hf; reflexivity.
  - intros resp m -> Hs Hj Hc.
    assert (get_calendars py_repr (Responded resp) = Return []) as Hl.
    { unfold get_calendars. rewrite Hs, Hj. cbn [Z.eqb Pos.eqb negb].
      unfold get_default. cbn [bind].
      destruct Hc as [Hc|Hc]; rewrite Hc; reflexivity. }
    unfold get_upcoming_events.
    destruct Hid as [-> | ->]; rewrite Hl; reflexivity.
Qed.

(** X8.  Without a calendar id, [get_upcoming_events] goes on with the
    first calendar of the listing, whatever its id is: it fetches the
    events of that id from the replies that follow the listing and keeps
    those of the window.  When the id is not empty this is what the call
    with that id gives on the replies that follow; an empty id is passed
    to [get_events] all the same, while a call with an empty id would list
    the calendars again. *)
Theorem first_calendar_is_used (calendar_id : option str) (days : Z)
    (now : datetime) (r : reply) (rest : list reply) (cal : calendar)
    (cals : list calendar) :
  calendar_id = None \/ calendar_id = Some [] ->
  get_calendars py_repr r = Return (cal :: cals) ->
  get_upcoming_events fromtimestamp py_repr calendar_id days now (r :: rest)
  = match get_events fromtimestamp py_repr (cal_id cal) rest with
    | None => None
    | Some (fetched, _) =>
      Some (all_events <- fetched ;;
            end_date <- add_days (replace_midnight now) days ;;
            Return (events_in_range (replace_midnight now) end_date
                      all_events))
    end
  /\ (cal_id cal <> [] ->
      get_upcoming_events fromtimestamp py_repr calendar_id days now
        (r :: rest)
      = get_upcoming_events fromtimestamp py_repr (Some (cal_id cal)) days
          now rest).
Proof.
  intros Hid Hl. split.
  - unfold get_upcoming_events.
    destruct Hid as [-> | ->]; rewrite Hl; reflexivity.
  - intros Hne. unfold get_upcoming_events.
    destruct (cal_id cal) as [|c s] eqn:Hc; [contradiction|].
    destruct Hid as [-> | ->]; rewrite Hl, Hc; reflexivity.
Qed.

End Listing.

Lemma get_calendars_lists_every_entry_witness :
  get_calendars no_repr (ok two_calendars)
  = Return [mkcalendar (text "7") (VStr (text "Home"));
            mkcalendar (text "None") (VStr (text "Work"))].
Proof.
  etransitivity.
  - apply (get_calendars_lists_every_entry no_repr
             (mkresponse 200 ∅ (Some two_calendars))
             (list_to_map
                [item "calendars"
                   (VList [dict [item "id" (VInt 7);
                                 item "name" (VStr (text "Home"))];
                           dict [item "name" (VStr (text "Work"))]])])
             [list_to_map [item "id" (VInt 7);
                           item "name" (VStr (text "Home"))];
              list_to_map [item "name" (VStr (text "Work"))]]).
    + reflexivity.
    + reflexivity.
    + vm_compute. reflexivity.
  - vm_compute. reflexivity.
Defined.

Lemma upcoming_events_without_calendar_witness :
  get_upcoming_events epoch_clock no_repr None 7 tuesday
    [ok no_calendars; Failed]
  = Some (Raise CalendarNotFoundError).
Proof.
  apply (proj2 (upcoming_events_without_calendar epoch_clock no_repr None 7
                  tuesday (ok no_calendars) [Failed] (or_introl eq_refl))
           (mkresponse 200 ∅ (Some no_calendars))
           (list_to_map [item "calendars" (VList [])])).
  - reflexivity.
  - reflexivity.
  - reflexivity.
  - right. vm_compute. reflexivity.
Defined.

Lemma first_calendar_is_used_witness :
  get_upcoming_events epoch_clock no_repr None 7 tuesday
    [ok nameless_calendar; ok page_without_cursor]
  = Some (Return []).
Proof.
  etransitivity.
  - apply (proj1 (first_calendar_is_used epoch_clock no_repr None 7 tuesday
                    (ok nameless_calendar) [ok page_without_cursor]
                    (mkcalendar [] VNone) [] (or_introl eq_refl)
                    ltac:(vm_compute; reflexivity))).
  - vm_compute. reflexivity.
Defined.

(* ================================================================== *)
(** ** More on the fetch *)

Section FetchMore.

Variable fromtimestamp : float -> outcome datetime.
Variable py_repr : pyval -> str.
Variable calendar_id : str.



(** A parsed body that is not an object. *)
Lemma read_page_no_object (data : pyval) :
  (forall m, data <> VDict m) ->
  read_page fromtimestamp data = Raise AttributeError.
Proof.
  intros H. unfold read_page, get_default.
  destruct data; try reflexivity. exfalso. exact (H m eq_refl).
Qed.

Lemma recursive_no_object (resp : response) (data since : pyval)
    (rest : list reply) :
  status_code resp = 200 -> json resp = Some data ->
  (forall m, data <> VDict m) ->
  _get_events_recursive fromtimestamp py_repr calendar_id since
    (Responded resp :: rest)
  = Some (Raise AttributeError,
          [continuation_url py_repr calendar_id since]).
Proof.
  intros Hs Hj Hd. cbn [_get_events_recursive].
  rewrite Hs, Hj, (read_page_no_object data Hd).
  cbn [Z.eqb Pos.eqb negb]. unfold continuation_url, swallow, try_except.
  cbn [existsb exn_eqb orb]. reflexivity.
Qed.

(** X10.  A body that parses but is not a JSON object (a list, a string,
    a number, null) is not covered by the failure policy of the fetch:
    [get_events] raises [AttributeError] instead of
    [TimeTreeScraperError], [get_calendars] does the same, and in a
    continuation call the error is not swallowed, so the events of the
    pages already read are lost with it. *)
Theorem body_that_is_no_object (resp : response) (data : pyval)
    (rest : list reply) :
  status_code resp = 200 -> json resp = Some data ->
  (forall m, data <> VDict m) ->
  get_events fromtimestamp py_repr calendar_id (Responded resp :: rest)
  = Some (Raise AttributeError, [sync_url calendar_id])
  /\ get_calendars py_repr (Responded resp) = Raise AttributeError
  /\ (forall (r0 : reply) (events0 : list event) (since0 : pyval),
        delivers fromtimestamp r0 events0 (VBool true) since0 ->
        truthy since0 = true ->
        get_events fromtimestamp py_repr calendar_id
          (r0 :: Responded resp :: rest)
        = Some (Raise AttributeError,
                [sync_url calendar_id;
                 continuation_url py_repr calendar_id since0])).
Proof.
  intros Hs Hj Hd. split; [|split].
  - cbn [get_events]. rewrite Hs, Hj, (read_page_no_object data Hd).
    cbn [Z.eqb Pos.eqb negb]. unfold translate, try_except.
    cbn [existsb exn_eqb orb]. reflexivity.
  - unfold get_calendars, get_default. rewrite Hs, Hj.
    cbn [Z.eqb Pos.eqb negb].
    destruct data; try reflexivity. exfalso. exact (Hd m eq_refl).
  - intros r0 events0 since0 (resp0 & data0 & -> & Hs0 & Hj0 & Hread) Ht.
    cbn [get_events]. rewrite Hs0, Hj0, Hread.
    cbn [Z.eqb Pos.eqb negb is_True andb]. rewrite Ht.
    rewrite (recursive_no_object resp data since0 rest Hs Hj Hd).
    unfold translate, try_except. cbn [bind existsb exn_eqb orb].
    reflexivity.
Qed.

(** The exceptions of the event loop. *)
Lemma read_timestamp_raises (ev : pyval) (key : string) (e : exn) :
  raises_as_documented fromtimestamp ->
  read_timestamp fromtimestamp ev key = Raise e ->
  escapes_fetch e = true.
Proof.
  intros Hdoc. unfold read_timestamp, get.
  destruct ev; cbn [bind]; try (intros [= <-]; reflexivity).
  destruct (truthy (default VNone (m !! text key))); [|discriminate].
  assert (forall z, match int_truediv z 1000 with
                    | Return _ => True
                    | Raise e' => e' = OverflowError
                    end) as Hdiv.
  { intros z. unfold int_truediv.
    destruct (SFdiv 53 1024 (spec_of_int z) (spec_of_int 1000)); auto. }
  assert (forall seconds,
            try_except (d <- fromtimestamp seconds ;; Return (At d))
              [TypeError; ValueError] (fun _ => Return IsNone) = Raise e ->
            escapes_fetch e = true) as Hconv.
  { intros seconds. destruct (fromtimestamp seconds) as [d|e'] eqn:Hf;
      cbn [bind try_except]; [discriminate|].
    destruct (Hdoc seconds e' Hf) as [-> | [-> | ->]];
      cbn [existsb exn_eqb orb]; try discriminate;
      intros [= <-]; reflexivity. }
  destruct (default VNone (m !! text key)) as [| b | z | f | s | l | d];
    cbn [div1000 bind]; try (cbn [try_except existsb exn_eqb orb];
                            discriminate).
  - pose proof (Hdiv (if b then 1 else 0)) as Hd.
    destruct (int_truediv (if b then 1 else 0) 1000) as [seconds|e'];
      cbn [bind]; [apply Hconv|].
    subst e'. cbn [try_except existsb exn_eqb orb].
    intros [= <-]. reflexivity.
  - pose proof (Hdiv z) as Hd.
    destruct (int_truediv z 1000) as [seconds|e'];
      cbn [bind]; [apply Hconv|].
    subst e'. cbn [try_except existsb exn_eqb orb].
    intros [= <-]. reflexivity.
  - apply Hconv.
Qed.

Lemma event_data_raises (ev : pyval) (e : exn) :
  raises_as_documented fromtimestamp ->
  event_data fromtimestamp ev = Raise e ->
  escapes_fetch e = true.
Proof.
  intros Hdoc. unfold event_data, get, get_default.
  destruct ev; cbn [bind]; try (intros [= <-]; reflexivity).
  pose proof (read_timestamp_raises (VDict m) "start_at") as H1.
  pose proof (read_timestamp_raises (VDict m) "end_at") as H2.
  destruct (read_timestamp fromtimestamp (VDict m) "start_at") as [s|e1];
    cbn [bind]; [|intros [= <-]; apply H1; [exact Hdoc|reflexivity]].
  destruct (read_timestamp fromtimestamp (VDict m) "end_at") as [d|e2];
    cbn [bind]; [discriminate|].
  intros [= <-]. apply H2; [exact Hdoc|reflexivity].
Qed.

Lemma read_page_raises (data : pyval) (e : exn) :
  raises_as_documented fromtimestamp ->
  read_page fromtimestamp data = Raise e ->
  escapes_fetch e = true.
Proof.
  intros Hdoc. unfold read_page, get_default, get.
  destruct data; cbn [bind]; try (intros [= <-]; reflexivity).
  destruct (iterate (default (VList []) (m !! text "events")))
    as [items|e0] eqn:Hit; cbn [bind].
  - destruct (mapM (event_data fromtimestamp) items) as [events|e1] eqn:Hm;
      cbn [bind]; [discriminate|].
    intros [= <-]. revert Hm.
    apply (mapM_raises_in _ (fun e => escapes_fetch e = true)).
    intros a e' _. apply event_data_raises, Hdoc.
  - intros [= <-]. revert Hit.
    destruct (default (VList []) (m !! text "events")); cbn [iterate];
      try discriminate; intros [= <-]; reflexivity.
Qed.

Lemma swallow_raises (body : outcome (list event)) (e : exn) :
  (forall e', body = Raise e' -> escapes_fetch e' = true) ->
  swallow body = Raise e -> escapes_fetch e = true.
Proof.
  intros H. unfold swallow, try_except. destruct body as [a|e']; [discriminate|].
  pose proof (H e' eq_refl) as He.
  destruct e'; try discriminate He; cbn [existsb exn_eqb orb];
    intros [= <-]; reflexivity.
Qed.

Lemma recursive_raises (net : list reply) :
  raises_as_documented fromtimestamp ->
  forall (since : pyval) (e : exn) (urls : list str),
  _get_events_recursive fromtimestamp py_repr calendar_id since net
  = Some (Raise e, urls) ->
  escapes_fetch e = true.
Proof.
  intros Hdoc.
  induction net as [|rep net IH]; intros since e urls;
    cbn [_get_events_recursive]; [discriminate|].
  destruct rep as [|resp]; [discriminate|].
  destruct (negb (status_code resp =? 200)); [discriminate|].
  destruct (json resp) as [data|]; [|discriminate].
  pose proof (read_page_raises data) as Hp.
  destruct (read_page fromtimestamp data) as [[[events chunk] since']|e0].
  - destruct (is_True chunk); [|discriminate].
    pose proof (IH since') as IH'.
    destruct (_get_events_recursive fromtimestamp py_repr calendar_id since'
                net) as [[more urls']|]; [|discriminate].
    intros [= H _]. revert H.
    apply (swallow_raises (m <- more ;; Return (events ++ m)) e).
    intros e'. destruct more as [m|e1]; cbn [bind]; [discriminate|].
    intros [= <-]. apply (IH' e1 urls'). reflexivity.
  - intros [= H _]. revert H. apply (swallow_raises (Raise e0) e).
    intros e' [= <-]. apply Hp; [exact Hdoc|reflexivity].
Qed.

Lemma translate_raises (body : outcome (list event)) (e : exn) :
  (forall e', body = Raise e' -> escapes_fetch e' = true) ->
  translate body = Raise e ->
  e = TimeTreeScraperError \/ escapes_fetch e = true.
Proof.
  intros H. unfold translate, try_except.
  destruct body as [a|e']; [discriminate|].
  pose proof (H e' eq_refl) as He.
  destruct e'; try discriminate He; cbn [existsb exn_eqb orb];
    intros [= <-]; right; reflexivity.
Qed.

Lemma get_events_escapes (net : list reply) (e : exn) (urls : list str) :
  raises_as_documented fromtimestamp ->
  get_events fromtimestamp py_repr calendar_id net = Some (Raise e, urls) ->
  e = TimeTreeScraperError \/ escapes_fetch e = true.
Proof.
  intros Hdoc.
  destruct net as [|rep net]; cbn [get_events]; [discriminate|].
  destruct rep as [|resp]; [intros [= <- _]; left; reflexivity|].
  destruct (negb (status_code resp =? 200));
    [intros [= <- _]; left; reflexivity|].
  destruct (json resp) as [data|]; [|intros [= <- _]; left; reflexivity].
  pose proof (read_page_raises data) as Hp.
  destruct (read_page fromtimestamp data) as [[[events chunk] since]|e0].
  - destruct (is_True chunk && truthy since); [|discriminate].
    pose proof (recursive_raises net Hdoc since) as Hr.
    destruct (_get_events_recursive fromtimestamp py_repr calendar_id
                since net) as [[more urls']|]; [|discriminate].
    intros [= H _]. revert H.
    apply (translate_raises (m <- more ;; Return (events ++ m)) e).
    intros e'. destruct more as [m|e1]; cbn [bind]; [discriminate|].
    intros [= <-]. apply (Hr e1 urls'). reflexivity.
  - intros [= H _]. revert H. apply (translate_raises (Raise e0) e).
    intros e' [= <-]. apply Hp; [exact Hdoc|reflexivity].
Qed.

(** X11.  The exceptions that come out of [get_events], when
    [datetime.fromtimestamp] raises what its documentation says:
    [TimeTreeScraperError] and, from bodies of unexpected shape and from
    timestamps out of range, [AttributeError], [TypeError],
    [OverflowError] and [OSError].  [ValueError] and
    [requests.RequestException] never come out. *)
Theorem exceptions_of_get_events (net : list reply) (e : exn)
    (urls : list str) :
  raises_as_documented fromtimestamp ->
  get_events fromtimestamp py_repr calendar_id net = Some (Raise e, urls) ->
  e = TimeTreeScraperError \/ e = AttributeError \/ e = TypeError
  \/ e = OverflowError \/ e = OSError.
Proof.
  intros Hdoc H.
  destruct (get_events_escapes net e urls Hdoc H) as [->|He].
  - left. reflexivity.
  - destruct e; try discriminate He; tauto.
Qed.

End FetchMore.


Lemma body_that_is_no_object_witness :
  get_events epoch_clock no_repr (text "7") [ok (VList [])]
  = Some (Raise AttributeError, [sync_url (text "7")]).
Proof.
  apply (proj1 (body_that_is_no_object epoch_clock no_repr (text "7")
                  (mkresponse 200 ∅ (Some (VList []))) (VList []) []
                  eq_refl eq_refl
                  (fun m (H : VList [] = VDict m) =>
                     eq_ind (VList []) (fun v => match v with
                                                 | VList _ => True
                                                 | _ => False
                                                 end) I (VDict m) H))).
Defined.

Lemma exceptions_of_get_events_witness :
  OverflowError = TimeTreeScraperError \/ OverflowError = AttributeError
  \/ OverflowError = TypeError \/ OverflowError = OverflowError
  \/ OverflowError = OSError.
Proof.
  apply (exceptions_of_get_events epoch_clock no_repr (text "7")
           [ok overflow_page] OverflowError [sync_url (text "7")]).
  - intros f e H. discriminate H.
  - vm_compute. reflexivity.
Defined.

(* ================================================================== *)
(** ** More on the sign-in *)

(** X12.  [login] touches nothing but the session: the credentials stay
    as they are, every cookie of the jar other than [_session_id] stays as
    it is, and the jar is left alone altogether unless the sign-in
    succeeds.  After a sign-in that succeeds the jar holds the session id
    that the scraper recorded. *)
Theorem login_changes_only_the_session (self : scraper) (net : reply) :
  email (snd (login self net)) = email self
  /\ password (snd (login self net)) = password self
  /\ (forall k, k <> text "_session_id" ->
        session_cookies (snd (login self net)) !! k
        = session_cookies self !! k)
  /\ (fst (login self net) <> Return tt ->
      session_cookies (snd (login self net)) = session_cookies self)
  /\ (fst (login self net) = Return tt ->
      session_cookies (snd (login self net)) !! text "_session_id"
      = session_id (snd (login self net))).
Proof.
  unfold login. destruct net as [|resp].
  - cbn [fst snd]. repeat split; try reflexivity. discriminate.
  - destruct (negb (status_code resp =? 200)).
    + cbn [fst snd]. repeat split; try reflexivity. discriminate.
    + destruct (cookies resp !! text "_session_id") as [[|c tok]|];
        cbn [fst snd email password session_cookies session_id].
      * repeat split; try reflexivity. discriminate.
      * split; [reflexivity|]. split; [reflexivity|]. split; [|split].
        -- intros k Hk. apply lookup_insert_ne. congruence.
        -- intros H. contradiction H. reflexivity.
        -- intros _. apply lookup_insert_eq.
      * repeat split; try reflexivity. discriminate.
Qed.

(* ================================================================== *)
(** ** From the raw record to the rendered line *)

Section Titles.

Variable fromtimestamp : float -> outcome datetime.
Variable py_repr : pyval -> str.

Lemma event_data_title (m : gmap str pyval) (e : event) :
  event_data fromtimestamp (VDict m) = Return e ->
  title e = Some (default (VStr (text "Untitled")) (m !! text "title")).
Proof.
  unfold event_data, get, get_default. cbn [bind].
  destruct (read_timestamp fromtimestamp (VDict m) "start_at");
    cbn [bind]; [|discriminate].
  destruct (read_timestamp fromtimestamp (VDict m) "end_at");
    cbn [bind]; [|discriminate].
  intros [= <-]. reflexivity.
Qed.

Lemma format_event_raises (e : event) :
  has_text_title e = false -> _format_event py_repr e = Raise TypeError.
Proof.
  unfold has_text_title, _format_event.
  destruct (title e) as [[]|]; try discriminate; intros _;
    cbn [default from_option id];
    destruct (truthy (all_day e)), (start e), (end_ e);
    cbn [str_plus bind]; reflexivity.
Qed.

(** X13.  From the raw record to the rendered line: an event read from a
    record whose title is missing or a string is rendered, while a title
    of any other kind (a JSON null, a number) passes [get_events]
    unnoticed and makes [_format_event] raise [TypeError]: the default
    ["Untitled"] only stands in for a missing key. *)
Theorem rendering_needs_text_title (m : gmap str pyval) (e : event) :
  event_data fromtimestamp (VDict m) = Return e ->
  (raw_title_is_text m -> exists line, _format_event py_repr e = Return line)
  /\ (~ raw_title_is_text m -> _format_event py_repr e = Raise TypeError).
Proof.
  intros He. apply event_data_title in He. unfold raw_title_is_text. split.
  - intros Ht. apply format_event_total. unfold has_text_title. rewrite He.
    destruct Ht as [Ht|[s Ht]]; rewrite Ht; reflexivity.
  - intros Ht. apply format_event_raises. unfold has_text_title.
    rewrite He.
    destruct (m !! text "title") as [[]|]; cbn [default from_option id];
      try reflexivity; exfalso; apply Ht.
    + right. eexists. reflexivity.
    + left. reflexivity.
Qed.

End Titles.

Lemma rendering_needs_text_title_witness :
  _format_event no_repr null_title_event = Raise TypeError.
Proof.
  assert (event_data epoch_clock (VDict null_title_record)
          = Return null_title_event) as He by (vm_compute; reflexivity).
  assert (~ raw_title_is_text null_title_record) as Ht.
  { unfold raw_title_is_text.
    intros [H|[s H]]; vm_compute in H; discriminate H. }
  exact (proj2 (rendering_needs_text_title epoch_clock no_repr
                  null_title_record null_title_event He) Ht).
Defined.

(* ================================================================== *)
(** ** More on the daily notification *)

Section DailyMore.

Variable py_repr : pyval -> str.

Lemma render_raises (events : list event) :
  forallb has_text_title events = false ->
  render_field_value py_repr events = Raise TypeError.
Proof.
  unfold render_field_value.
  induction events as [|e rest IH]; cbn [forallb mapM]; [discriminate|].
  destruct (has_text_title e) eqn:He; cbn [andb].
  - intros Hrest. destruct (format_event_total py_repr e He) as [line Hl].
    rewrite Hl. cbn [bind]. specialize (IH Hrest).
    destruct (mapM (_format_event py_repr) rest); cbn [bind] in *;
      [discriminate IH|exact IH].
  - intros _. rewrite (format_event_raises py_repr e He). reflexivity.
Qed.

Lemma daily_embed_raises (heading : str) (events : list event)
    (current_date : datetime) :
  forallb has_text_title events = false ->
  daily_embed py_repr heading events current_date = Raise TypeError.
Proof.
  intros H. destruct events as [|e rest]; [discriminate|].
  unfold daily_embed. rewrite (render_raises (e :: rest) H). reflexivity.
Qed.

(** X14.  [send_daily_notification] raises [TypeError] exactly when some
    event of the two lists has a title that is not a string; the reply of
    the webhook plays no role then, the error comes before the request. *)
Theorem daily_notification_TypeError
    (today_events tomorrow_events : list event)
    (current_date tomorrow_date : datetime) (net : reply) :
  send_daily_notification py_repr today_events tomorrow_events
    current_date tomorrow_date net = Raise TypeError
  <-> forallb has_text_title (today_events ++ tomorrow_events) = false.
Proof.
  rewrite forallb_app. unfold send_daily_notification.
  destruct (forallb has_text_title today_events) eqn:H1;
    [destruct (forallb has_text_title tomorrow_events) eqn:H2|];
    cbn [andb].
  - destruct (daily_embeds_blocks py_repr today_events tomorrow_events
                current_date tomorrow_date H1 H2) as (b1 & b2 & Hb & _).
    rewrite Hb. cbn [bind].
    destruct (post_outcome (Embeds [b1; b2]) net) as [H|H]; rewrite H;
      split; discriminate.
  - split; [reflexivity|]. intros _. unfold _create_daily_embeds.
    destruct (daily_embed_block py_repr
                (text "📅 今日の予定 - " ++ _format_date current_date)
                today_events current_date H1) as (b1 & Hb1 & _).
    rewrite Hb1. cbn [bind].
    rewrite (daily_embed_raises _ tomorrow_events current_date H2).
    reflexivity.
  - split; [reflexivity|]. intros _. unfold _create_daily_embeds.
    rewrite (daily_embed_raises _ today_events current_date H1).
    reflexivity.
Qed.

End DailyMore.

(* ================================================================== *)
(** ** The weekly notification *)


Lemma date_ltb_spec (a b : date) :
  date_ltb a b = true
  <-> (dyear a < dyear b
       \/ (dyear a = dyear b
           /\ (dmonth a < dmonth b
               \/ (dmonth a = dmonth b /\ dday a < dday b)))).
Proof.
  unfold date_ltb. cbn [lex].
  destruct (Z.compare_spec (dyear a) (dyear b));
    destruct (Z.compare_spec (dmonth a) (dmonth b));
    destruct (Z.compare_spec (dday a) (dday b));
    split; intros H'; try discriminate H'; try reflexivity; lia.
Qed.

Lemma date_ltb_trans (a b c : date) :
  date_ltb a b = true -> date_ltb b c = true -> date_ltb a c = true.
Proof. rewrite !date_ltb_spec. lia. Qed.


Lemma insert_sorted_perm (x : event) (l : list event) :
  Permutation (insert_sorted x l) (x :: l).
Proof.
  induction l as [|y l IH]; cbn [insert_sorted]; [reflexivity|].
  destruct (ltb (sort_key x) (sort_key y)); [reflexivity|].
  etransitivity; [apply perm_skip, IH|apply perm_swap].
Qed.

Lemma sorted_events_perm (events : list event) :
  Permutation (sorted_events events) events.
Proof.
  unfold sorted_events.
  assert (forall acc,
            Permutation
              (fold_left (fun acc e => insert_sorted e acc) events acc)
              (acc ++ events)) as H.
  { induction events as [|e rest IH]; intros acc; cbn [fold_left].
    - rewrite app_nil_r. reflexivity.
    - etransitivity; [apply IH|].
      etransitivity;
        [apply Permutation_app_tail, insert_sorted_perm|].
      apply Permutation_middle. }
  exact (H []).
Qed.

Lemma bucket_append_perm (k : date) (ev : event)
    (buckets : list (date * list event)) :
  Permutation (bucket_events (bucket_append k ev buckets))
    (bucket_events buckets ++ [ev]).
Proof.
  unfold bucket_events.
  induction buckets as [|[k' evs] rest IH]; cbn [bucket_append].
  - reflexivity.
  - destruct (date_eqb k' k); cbn [map List.concat snd].
    + rewrite <- !app_assoc. apply Permutation_app_head.
      apply Permutation_app_comm.
    + rewrite <- app_assoc. apply Permutation_app_head. exact IH.
Qed.

Lemma group_by_date_perm (clock : nat -> datetime) (events : list event) :
  forall (tick : nat) (buckets : list (date * list event)),
  Permutation (bucket_events (group_by_date clock tick events buckets))
    (bucket_events buckets ++ events).
Proof.
  induction events as [|e rest IH]; intros tick buckets;
    cbn [group_by_date].
  - rewrite app_nil_r. reflexivity.
  - assert (forall k tick',
              Permutation
                (bucket_events
                   (group_by_date clock tick' rest
                      (bucket_append k e buckets)))
                (bucket_events buckets ++ e :: rest)) as H.
    { intros k tick'. etransitivity; [apply IH|].
      etransitivity; [apply Permutation_app_tail, bucket_append_perm|].
      rewrite <- app_assoc. reflexivity. }
    destruct (start e); apply H.
Qed.

Lemma insert_bucket_perm (b : date * list event)
    (l : list (date * list event)) :
  Permutation (bucket_events (insert_bucket b l))
    (snd b ++ bucket_events l).
Proof.
  unfold bucket_events.
  induction l as [|c l IH]; cbn [insert_bucket]; [reflexivity|].
  destruct (date_ltb (fst b) (fst c)); cbn [map List.concat];
    [reflexivity|].
  etransitivity; [apply Permutation_app_head, IH|].
  rewrite !app_assoc. apply Permutation_app_tail, Permutation_app_comm.
Qed.

Lemma sorted_buckets_perm (buckets : list (date * list event)) :
  Permutation (bucket_events (sorted_buckets buckets))
    (bucket_events buckets).
Proof.
  unfold sorted_buckets.
  assert (forall acc,
            Permutation
              (bucket_events
                 (fold_left (fun acc b => insert_bucket b acc) buckets acc))
              (bucket_events acc ++ bucket_events buckets)) as H.
  { induction buckets as [|b rest IH]; intros acc; cbn [fold_left].
    - unfold bucket_events at 3. cbn [map List.concat].
      rewrite app_nil_r. reflexivity.
    - etransitivity; [apply IH|].
      etransitivity; [apply Permutation_app_tail, insert_bucket_perm|].
      unfold bucket_events at 4. cbn [map List.concat].
      fold (bucket_events rest).
      rewrite (app_assoc (bucket_events acc)).
      apply Permutation_app_tail, Permutation_app_comm. }
  exact (H []).
Qed.








Lemma mapM_Forall2 {A B} (f : A -> outcome B) (l : list A) :
  forall bs, mapM f l = Return bs ->
  List.Forall2 (fun a b => f a = Return b) l bs.
Proof.
  induction l as [|a l IH]; cbn [mapM]; intros bs.
  - intros [= <-]. constructor.
  - destruct (f a) as [b|e] eqn:Ha; cbn [bind]; [|discriminate].
    destruct (mapM f l) as [bs'|e]; cbn [bind]; [|discriminate].
    intros [= <-]. constructor; [exact Ha|]. apply IH. reflexivity.
Qed.

Lemma date_field_inv (py_repr : pyval -> str) (b : date * list event)
    (f : field) :
  date_field py_repr b = Return f -> field_of py_repr b f.
Proof.
  unfold date_field, field_of.
  destruct (render_field_value py_repr (snd b)) as [v|e]; cbn [bind];
    [|discriminate].
  intros [= <-]. cbn [name value inline]. repeat split.
Qed.










(** The grouping reads the clock for events without a start only. *)
Lemma group_by_date_started (clock clock' : nat -> datetime)
    (events : list event) :
  (forall e, In e events -> has_start e = true) ->
  forall (tick tick' : nat) (buckets : list (date * list event)),
  group_by_date clock tick events buckets
  = group_by_date clock' tick' events buckets.
Proof.
  induction events as [|e rest IH]; intros Hall tick tick' buckets;
    [reflexivity|].
  cbn [group_by_date].
  pose proof (Hall e (or_introl eq_refl)) as He. unfold has_start in He.
  destruct (start e); try discriminate He.
  apply IH. intros x Hx. apply Hall. right. exact Hx.
Qed.

Section Weekly.

Variable py_repr : pyval -> str.

(** The buckets from which [_create_embeds] makes the fields. *)
Lemma create_embeds_inv (clock : nat -> datetime) (events : list event)
    (embeds : list embed) :
  events <> [] ->
  _create_embeds py_repr clock events = Return embeds ->
  exists fs,
    mapM (date_field py_repr)
      (sorted_buckets (group_by_date clock 1 (sorted_events events) []))
    = Return fs
    /\ embeds
       = [mkembed (text "📅 今週のTimeTree予定") None blurple (Some fs)
            (updated (clock 0%nat))].
Proof.
  intros Hne. unfold _create_embeds.
  destruct events as [|e rest]; [contradiction|].
  destruct (mapM (date_field py_repr)
              (sorted_buckets
                 (group_by_date clock 1 (sorted_events (e :: rest)) [])))
    as [fs|e0]; cbn [bind]; [|discriminate].
  intros [= <-]. exists fs. split; reflexivity.
Qed.

Lemma fields_of_buckets (buckets : list (date * list event))
    (fs : list field) :
  mapM (date_field py_repr) buckets = Return fs ->
  List.Forall2 (field_of py_repr) buckets fs.
Proof.
  intros H. apply mapM_Forall2 in H.
  induction H as [|b f bs fs' Hbf _ IH]; constructor.
  - apply date_field_inv, Hbf.
  - exact IH.
Qed.


Lemma mapM_raises_some {A B} (f : A -> outcome B) (e : exn) (l : list A) :
  (forall a, In a l -> (exists b, f a = Return b) \/ f a = Raise e) ->
  (exists a, In a l /\ f a = Raise e) ->
  mapM f l = Raise e.
Proof.
  induction l as [|a l IH]; intros Hall (x & Hx & Hfx); [destruct Hx|].
  cbn [mapM].
  destruct (Hall a (or_introl eq_refl)) as [[b Hb]|Hb]; rewrite Hb;
    cbn [bind]; [|reflexivity].
  destruct Hx as [->|Hx]; [congruence|].
  rewrite IH; [reflexivity| |exists x; split; assumption].
  intros y Hy. apply Hall. right. exact Hy.
Qed.

Lemma date_field_outcome (b : date * list event) :
  (exists f, date_field py_repr b = Return f)
  \/ date_field py_repr b = Raise TypeError.
Proof.
  unfold date_field.
  destruct (forallb has_text_title (snd b)) eqn:H.
  - left. destruct (render_total py_repr (snd b) H) as (lines & _ & Hr).
    rewrite Hr. cbn [bind]. eexists. reflexivity.
  - right. rewrite (render_raises py_repr (snd b) H). reflexivity.
Qed.

Lemma create_embeds_raises (clock : nat -> datetime) (events : list event) :
  forallb has_text_title events = false ->
  _create_embeds py_repr clock events = Raise TypeError.
Proof.
  intros H.
  assert (exists x, In x events /\ has_text_title x = false) as (x & Hx & Ht).
  { clear clock. induction events as [|e rest IH]; [discriminate|].
    cbn [forallb] in H. destruct (has_text_title e) eqn:He.
    - destruct (IH H) as (x & Hx & Ht). exists x. split; [right|]; assumption.
    - exists e. split; [left; reflexivity|exact He]. }
  unfold _create_embeds. destruct events as [|e rest]; [destruct Hx|].
  rewrite (mapM_raises_some (date_field py_repr) TypeError); [reflexivity| |].
  - intros b _. apply date_field_outcome.
  - assert (In x (bucket_events
                    (sorted_buckets
                       (group_by_date clock 1 (sorted_events (e :: rest))
                          [])))) as Hin.
    { eapply Permutation_in; [|exact Hx]. symmetry.
      etransitivity; [apply sorted_buckets_perm|].
      etransitivity; [apply group_by_date_perm|].
      apply sorted_events_perm. }
    unfold bucket_events in Hin. apply in_concat in Hin as (evs & Hevs & Hxin).
    apply in_map_iff in Hevs as (b & <- & Hb).
    exists b. split; [exact Hb|].
    unfold date_field. rewrite (render_raises py_repr (snd b)); [reflexivity|].
    destruct (forallb has_text_title (snd b)) eqn:Hall; [|reflexivity].
    rewrite (proj1 (forallb_forall _ _) Hall x Hxin) in Ht. discriminate.
Qed.

(** X16.  [send_events] raises [TypeError] exactly when some event has a
    title that is not a string, whatever the webhook would reply. *)
Theorem weekly_notification_TypeError (clock : nat -> datetime)
    (events : list event) (net : reply) :
  send_events py_repr clock events net = Raise TypeError
  <-> forallb has_text_title events = false.
Proof.
  unfold send_events. destruct (forallb has_text_title events) eqn:H.
  - assert (exists body,
              match events with
              | [] =>
                Return (Embeds [mkembed (text "📅 今週のTimeTree予定")
                                  (Some (text "予定はありません 🎉")) green
                                  None (updated (clock 0%nat))])
              | _ :: _ =>
                embeds <- _create_embeds py_repr clock events ;;
                Return (Embeds embeds)
              end = Return body) as [body Hb].
    { destruct events as [|e rest]; [eexists; reflexivity|].
      destruct (create_embeds_total py_repr clock (e :: rest) H)
        as [embeds He].
      rewrite He. cbn [bind]. eexists. reflexivity. }
    rewrite Hb. cbn [bind].
    destruct (post_outcome body net) as [Hp|Hp]; rewrite Hp;
      split; discriminate.
  - split; [reflexivity|]. intros _.
    destruct events as [|e rest]; [discriminate|].
    rewrite (create_embeds_raises clock (e :: rest) H). reflexivity.
Qed.

Lemma limit_length (s : str) : (length (limit_field_value s) <= 1024)%nat.
Proof.
  destruct (Nat.le_gt_cases (length s) 1024) as [H|H].
  - rewrite (limit_short s H). exact H.
  - destruct (limit_long s H) as [_ Hl]. rewrite Hl. lia.
Qed.

Lemma daily_embed_within_limit (heading : str) (events : list event)
    (current_date : datetime) (b : embed) :
  daily_embed py_repr heading events current_date = Return b ->
  within_field_limit b.
Proof.
  unfold daily_embed. destruct events as [|e rest].
  - intros [= <-] fs f Hfs. discriminate Hfs.
  - destruct (render_field_value py_repr (e :: rest)) as [v|e0] eqn:Hr;
      cbn [bind]; [|discriminate].
    apply render_field_value_inv in Hr as (lines & _ & ->).
    intros [= <-] fs f [= <-] [<-|[]]. cbn [value]. apply limit_length.
Qed.

(** X17.  Neither notification exceeds the limit of 1024 characters that
    Discord sets on the value of a field: it holds of every field of
    every block that [_create_daily_embeds] and [_create_embeds]
    return. *)
Theorem field_values_within_limit :
  (forall (today_events tomorrow_events : list event)
      (current_date tomorrow_date : datetime) (embeds : list embed)
      (em : embed),
    _create_daily_embeds py_repr today_events tomorrow_events current_date
      tomorrow_date = Return embeds ->
    In em embeds -> within_field_limit em)
  /\ (forall (clock : nat -> datetime) (events : list event)
        (embeds : list embed) (em : embed),
      _create_embeds py_repr clock events = Return embeds ->
      In em embeds -> within_field_limit em).
Proof.
  split.
  - intros today tomorrow cur tom embeds em. unfold _create_daily_embeds.
    destruct (daily_embed py_repr
                (text "📅 今日の予定 - " ++ _format_date cur) today cur)
      as [b1|e1] eqn:H1; cbn [bind]; [|discriminate].
    destruct (daily_embed py_repr
                (text "📅 明日の予定 - " ++ _format_date tom) tomorrow cur)
      as [b2|e2] eqn:H2; cbn [bind]; [|discriminate].
    intros [= <-] [<-|[<-|[]]].
    + exact (daily_embed_within_limit _ _ _ _ H1).
    + exact (daily_embed_within_limit _ _ _ _ H2).
  - intros clock events embeds em H Hin.
    destruct events as [|e rest].
    { cbn [_create_embeds] in H. injection H as <-. destruct Hin. }
    destruct (create_embeds_inv clock (e :: rest) embeds) as (fs & Hfs & ->);
      [discriminate|exact H|].
    destruct Hin as [<-|[]]. intros fs' f [= <-] Hf.
    apply fields_of_buckets in Hfs. clear H.
    induction Hfs as [|b f0 bs fs' Hbf _ IH]; [destruct Hf|].
    destruct Hf as [->|Hf]; [|exact (IH Hf)].
    destruct Hbf as (_ & Hv & _).
    apply render_field_value_inv in Hv as (lines & _ & ->).
    apply limit_length.
Qed.

(** X24.  The weekly notification of events that passed the date filter
    reads the clock once, for the footer: every such event has a start,
    so the date of the day, which stands in for a missing start, is never
    asked for.  Two clocks that agree on the first reading give the same
    notification. *)
Theorem weekly_digest_of_filtered_events (start_date end_date : datetime)
    (all_events : list event) (clock clock' : nat -> datetime) :
  clock 0%nat = clock' 0%nat ->
  _create_embeds py_repr clock
    (events_in_range start_date end_date all_events)
  = _create_embeds py_repr clock'
      (events_in_range start_date end_date all_events).
Proof.
  intros Hclock.
  assert (forall e,
            In e (events_in_range start_date end_date all_events) ->
            has_start e = true) as Hstart.
  { intros e He. unfold events_in_range in He.
    apply filter_In in He as [_ He]. unfold in_range in He.
    unfold has_start. destruct (start e); [discriminate|discriminate|].
    reflexivity. }
  unfold _create_embeds.
  destruct (events_in_range start_date end_date all_events) as [|e rest];
    [reflexivity|].
  rewrite Hclock.
  rewrite (group_by_date_started clock clock' (sorted_events (e :: rest)))
    with (tick' := 1%nat); [reflexivity|].
  intros x Hx. apply Hstart, in_sorted_events, Hx.
Qed.

End Weekly.

Lemma weekly_digest_of_filtered_events_witness :
  _create_embeds no_repr morning_clock
    (events_in_range tuesday wednesday [two_day_event])
  = _create_embeds no_repr drifting_clock
      (events_in_range tuesday wednesday [two_day_event]).
Proof.
  apply (weekly_digest_of_filtered_events no_repr tuesday wednesday
           [two_day_event] morning_clock drifting_clock).
  reflexivity.
Defined.


Lemma field_values_within_limit_witness :
  (length (value standup_field) <= 1024)%nat.
Proof.
  apply (proj2 (field_values_within_limit no_repr) morning_clock [standup]
           standup_digest standup_block ltac:(vm_compute; reflexivity)
           (or_introl eq_refl) [standup_field] standup_field eq_refl
           (or_introl eq_refl)).
Defined.

(* ================================================================== *)
(** ** The program *)

Import Program.

Lemma posts_app (a b : list request) :
  posts (a ++ b) = (posts a + posts b)%nat.
Proof. unfold posts. rewrite List.filter_app, length_app. reflexivity. Qed.

Lemma posts_sync (urls : list str) : posts (map Sync urls) = 0%nat.
Proof.
  unfold posts. induction urls as [|u urls IH]; [reflexivity|exact IH].
Qed.

Lemma login_raises (self : scraper) (r : reply) (e : exn) :
  fst (login self r) = Raise e -> e = LoginError.
Proof.
  unfold login. destruct r as [|resp]; cbn [fst]; [intros [= <-]; reflexivity|].
  destruct (negb (status_code resp =? 200)); cbn [fst];
    [intros [= <-]; reflexivity|].
  destruct (cookies resp !! text "_session_id") as [[|c tok]|]; cbn [fst];
    intros H; try discriminate H; injection H as <-; reflexivity.
Qed.

Lemma add_days_raises (d : datetime) (n : Z) (e : exn) :
  add_days d n = Raise e -> e = OverflowError.
Proof.
  unfold add_days.
  destruct ((0 <? toordinal (date_of d) + n)
            && (toordinal (date_of d) + n <=? max_ordinal));
    [discriminate|]. intros [= <-]. reflexivity.
Qed.

(** The end of the window of a day is the start of the window of the
    next day. *)
Lemma add_days_midnight (d t : datetime) (n : Z) :
  add_days d n = Return t ->
  add_days (replace_midnight d) n = Return (replace_midnight t).
Proof.
  unfold add_days.
  change (date_of (replace_midnight d)) with (date_of d).
  destruct ((0 <? toordinal (date_of d) + n)
            && (toordinal (date_of d) + n <=? max_ordinal));
    [|discriminate]. intros [= <-]. reflexivity.
Qed.

Section Runs.

Variable fromtimestamp : float -> outcome datetime.
Variable py_repr : pyval -> str.

(** What is assumed of the replies, and the exceptions that the
    stretches before the notification may raise. *)
Variable inv : list reply -> Prop.
Hypothesis inv_tail : forall r net, inv (r :: net) -> inv net.

Variable E : exn -> Prop.
Hypothesis E_others : forall e, e <> DiscordNotifierError -> E e.
Hypothesis E_fetch :
  forall calendar_id net e urls,
    get_events fromtimestamp py_repr calendar_id net = Some (Raise e, urls) ->
    E e.

Lemma inv_drop (n : nat) : forall net, inv net -> inv (drop n net).
Proof.
  induction n as [|n IH]; intros net H; [exact H|].
  destruct net as [|r net]; [exact H|].
  exact (IH net (inv_tail r net H)).
Qed.

Lemma ends_seq {A B} (after1 : step A -> nat -> Prop)
    (after2 after : step B -> nat -> Prop) (m : run A) (k : A -> run B) :
  ends inv after1 m ->
  (forall a, ends inv after2 (k a)) ->
  (forall a n1 s n2,
     after1 (Go a) n1 -> after2 s n2 -> after s (n1 + n2)%nat) ->
  (forall e n, after1 (Throw e) n -> after (Throw e) n) ->
  (forall w n, after1 (Quit w) n -> after (Quit w) n) ->
  ends inv after (seq m k).
Proof.
  intros Hm Hk Hgo Hthrow Hquit net s net' sent Hinv. unfold seq.
  destruct (m net) as [[[s1 net1] sent1]|] eqn:Hm1; [|discriminate].
  destruct (Hm net s1 net1 sent1 Hinv Hm1) as [Hinv1 H1].
  destruct s1 as [a|e|w].
  - destruct (k a net1) as [[[s2 net2] sent2]|] eqn:Hk2; [|discriminate].
    intros [= <- <- <-].
    destruct (Hk a net1 s2 net2 sent2 Hinv1 Hk2) as [Hinv2 H2].
    split; [exact Hinv2|]. rewrite posts_app. apply (Hgo a); assumption.
  - intros [= <- <- <-]. split; [exact Hinv1|]. apply Hthrow, H1.
  - intros [= <- <- <-]. split; [exact Hinv1|]. apply Hquit, H1.
Qed.

Lemma ends_seq_calm {A B} (after : step B -> nat -> Prop) (m : run A)
    (k : A -> run B) :
  ends inv (calm E) m ->
  (forall a, ends inv after (k a)) ->
  (forall e, E e -> after (Throw e) 0%nat) ->
  ends inv after (seq m k).
Proof.
  intros Hm Hk Hthrow.
  apply (ends_seq (calm E) after after m k Hm Hk).
  - intros a n1 s n2 [-> _] H. exact H.
  - intros e n [-> H]. apply Hthrow, H.
  - intros w n [_ []].
Qed.

Lemma calm_seq {A B} (m : run A) (k : A -> run B) :
  ends inv (calm E) m ->
  (forall a, ends inv (calm E) (k a)) ->
  ends inv (calm E) (seq m k).
Proof.
  intros Hm Hk. apply ends_seq_calm; [exact Hm|exact Hk|].
  intros e He. split; [reflexivity|exact He].
Qed.

Lemma ends_ret {A} (after : step A -> nat -> Prop) (a : A) :
  after (Go a) 0%nat -> ends inv after (ret a).
Proof.
  intros H net s net' sent Hinv [= <- <- <-]. split; [exact Hinv|exact H].
Qed.

Lemma ends_lift {A} (after : step A -> nat -> Prop) (m : outcome A) :
  after (of_outcome m) 0%nat -> ends inv after (lift m).
Proof.
  intros H net s net' sent Hinv [= <- <- <-]. split; [exact Hinv|exact H].
Qed.

Lemma ends_request_one {A} (after : step A -> nat -> Prop) (q : request)
    (f : reply -> outcome A) :
  (forall r net, inv (r :: net) -> after (of_outcome (f r)) (posts [q])) ->
  ends inv after (request_one q f).
Proof.
  intros H net s net' sent Hinv. unfold request_one.
  destruct net as [|r net]; [discriminate|]. intros [= <- <- <-].
  split; [exact (inv_tail r net Hinv)|exact (H r net Hinv)].
Qed.

Lemma calm_of_outcome {A} (m : outcome A) :
  (forall e, m = Raise e -> e <> DiscordNotifierError) ->
  calm E (of_outcome m) 0%nat.
Proof.
  intros H. split; [reflexivity|].
  destruct m as [a|e]; cbn [of_outcome]; [exact I|].
  apply E_others, H. reflexivity.
Qed.

Lemma calm_lift {A} (m : outcome A) :
  (forall e, m = Raise e -> e <> DiscordNotifierError) ->
  ends inv (calm E) (lift m).
Proof. intros H. apply ends_lift, calm_of_outcome, H. Qed.

Lemma calm_ret {A} (a : A) : ends inv (calm E) (ret a).
Proof. apply ends_ret. split; [reflexivity|exact I]. Qed.

Lemma calm_sign_in (config : config) : ends inv (calm E) (sign_in config).
Proof.
  apply ends_request_one. intros r net _.
  change (posts [SignIn]) with 0%nat. apply calm_of_outcome.
  intros e He. apply login_raises in He. subst e. discriminate.
Qed.

Lemma calm_fetch_calendars : ends inv (calm E) (fetch_calendars py_repr).
Proof.
  apply ends_request_one. intros r net _.
  change (posts [ListCalendars]) with 0%nat. apply calm_of_outcome.
  intros e He. apply get_calendars_raises in He.
  destruct He as [->|[->| ->]]; discriminate.
Qed.

Lemma calm_fetch_events (calendar_id : str) :
  ends inv (calm E) (fetch_events fromtimestamp py_repr calendar_id).
Proof.
  intros net s net' sent Hinv. unfold fetch_events.
  destruct (get_events fromtimestamp py_repr calendar_id net)
    as [[r urls]|] eqn:Hg; [|discriminate].
  intros [= <- <- <-]. split; [apply inv_drop, Hinv|].
  rewrite posts_sync. split; [reflexivity|].
  destruct r as [events|e]; cbn [of_outcome]; [exact I|].
  exact (E_fetch calendar_id net e urls Hg).
Qed.

Lemma calm_add_days (d : datetime) (n : Z) :
  ends inv (calm E) (lift (add_days d n)).
Proof.
  apply calm_lift. intros e He. apply add_days_raises in He. subst e.
  discriminate.
Qed.

Lemma calm_events_for_date (calendar_id : str) (target_date : datetime) :
  ends inv (calm E)
    (events_for_date fromtimestamp py_repr calendar_id target_date).
Proof.
  unfold events_for_date.
  apply calm_seq; [apply calm_add_days|]. intros end_.
  apply calm_seq; [apply calm_fetch_events|]. intros all_events.
  apply calm_ret.
Qed.

Lemma calm_upcoming_events (calendar_id : option str) (days : Z)
    (now : datetime) :
  ends inv (calm E)
    (upcoming_events fromtimestamp py_repr calendar_id days now).
Proof.
  unfold upcoming_events.
  assert (ends inv (calm E)
            (calendars <~ fetch_calendars py_repr ;;
             match calendars with
             | [] => lift (Raise CalendarNotFoundError)
             | cal :: _ => ret (cal_id cal)
             end)) as Hlist.
  { apply calm_seq; [apply calm_fetch_calendars|].
    intros [|cal cals]; [|apply calm_ret].
    apply calm_lift. intros e [= <-]. discriminate. }
  apply calm_seq.
  - destruct calendar_id as [[|c s]|]; [exact Hlist|apply calm_ret|exact Hlist].
  - intros cid. apply calm_seq; [apply calm_fetch_events|].
    intros all_events. apply calm_seq; [apply calm_add_days|].
    intros end_date. apply calm_ret.
Qed.

Lemma create_daily_embeds_raises_only
    (today_events tomorrow_events : list event)
    (current_date tomorrow_date : datetime) (e : exn) :
  _create_daily_embeds py_repr today_events tomorrow_events current_date
    tomorrow_date = Raise e ->
  e = TypeError.
Proof.
  assert (forall heading events,
            (exists b, daily_embed py_repr heading events current_date
                       = Return b)
            \/ daily_embed py_repr heading events current_date
               = Raise TypeError) as Hd.
  { intros heading events.
    destruct (forallb has_text_title events) eqn:H.
    - left.
      destruct (daily_embed_block py_repr heading events current_date H)
        as (b & Hb & _).
      exists b. exact Hb.
    - right. apply daily_embed_raises, H. }
  unfold _create_daily_embeds.
  destruct (Hd (text "📅 今日の予定 - " ++ _format_date current_date)
              today_events) as [[b1 H1]|H1]; rewrite H1; cbn [bind];
    [|intros [= <-]; reflexivity].
  destruct (Hd (text "📅 明日の予定 - " ++ _format_date tomorrow_date)
              tomorrow_events) as [[b2 H2]|H2]; rewrite H2; cbn [bind];
    [discriminate|intros [= <-]; reflexivity].
Qed.

Lemma create_embeds_raises_only (clock : nat -> datetime)
    (events : list event) (e : exn) :
  _create_embeds py_repr clock events = Raise e -> e = TypeError.
Proof.
  destruct (forallb has_text_title events) eqn:H.
  - destruct (create_embeds_total py_repr clock events H) as [embeds He].
    rewrite He. discriminate.
  - rewrite (create_embeds_raises py_repr clock events H).
    intros [= <-]. reflexivity.
Qed.

Lemma ends_send_daily (today_events tomorrow_events : list event)
    (current_date tomorrow_date : datetime) :
  ends inv after_daily
    (send_daily py_repr today_events tomorrow_events current_date
       tomorrow_date).
Proof.
  intros net s net' sent Hinv. unfold send_daily, seq, lift.
  pose proof (create_daily_embeds_raises_only today_events tomorrow_events
                current_date tomorrow_date) as Hc.
  destruct (_create_daily_embeds py_repr today_events tomorrow_events
              current_date tomorrow_date) as [embeds|e]; cbn [of_outcome].
  - unfold request_one. destruct net as [|r net]; [discriminate|].
    intros [= <- <- <-]. split; [exact (inv_tail r net Hinv)|].
    change (posts ([] ++ [Webhook (Embeds embeds)])) with 1%nat.
    destruct (post_outcome (Embeds embeds) r) as [H|H]; rewrite H;
      cbn [of_outcome after_daily]; [reflexivity|].
    left. split; reflexivity.
  - intros [= <- <- <-]. split; [exact Hinv|].
    cbn [after_daily]. right. split; [|reflexivity].
    apply Hc. reflexivity.
Qed.

Lemma ends_weekly (calendar_id : str) (clock : nat -> datetime) :
  ends inv (after_weekly inv E)
    (weekly fromtimestamp py_repr calendar_id clock).
Proof.
  assert (forall e, E e -> after_weekly inv E (@Throw unit e) 0%nat) as Hthrow.
  { intros e He. split; [exact He|]. left. reflexivity. }
  unfold weekly.
  apply ends_seq_calm; [apply calm_add_days| |exact Hthrow]. intros week_end.
  apply ends_seq_calm; [apply calm_upcoming_events| |exact Hthrow].
  intros week_events.
  apply ends_seq_calm; [| |exact Hthrow].
  - apply calm_lift. intros e He. apply create_embeds_raises_only in He.
    subst e. discriminate.
  - intros embeds. apply ends_request_one. intros r net Hinv.
    match goal with
    | |- context [posts [Webhook ?p]] =>
      change (posts [Webhook p]) with 1%nat
    end.
    destruct r as [|resp]; cbn [post_unchecked of_outcome after_weekly].
    + split; [apply E_others; discriminate|]. right.
      intros Hall. specialize (Hall Failed net Hinv). discriminate Hall.
    + reflexivity.
Qed.

Lemma ends_notify (config : config) (clock : nat -> datetime) :
  ends inv (after_notify inv E (weekday (clock 0%nat) =? 0))
    (notify fromtimestamp py_repr config clock).
Proof.
  set (monday := weekday (clock 0%nat) =? 0).
  assert (forall e, E e -> after_notify inv E monday (@Throw unit e) 0%nat)
    as Hthrow.
  { intros e He. right. split; [exact He|]. split; [reflexivity|].
    discriminate. }
  unfold notify. fold monday.
  apply ends_seq_calm; [apply calm_sign_in| |exact Hthrow]. intros _.
  apply (ends_seq (after_calendar E) (after_notify inv E monday)).
  - destruct (is_set (timetree_calendar_id config)).
    + apply ends_ret. split; [reflexivity|exact I].
    + apply (ends_seq (calm E) (after_calendar E));
        [apply calm_fetch_calendars| | | |].
      * intros [|cal cals].
        -- intros net s net' sent Hinv [= <- <- <-].
           split; [exact Hinv|]. split; reflexivity.
        -- apply ends_ret. split; [reflexivity|exact I].
      * intros a n1 s n2 [-> _] H. exact H.
      * intros e n [-> H]. split; [reflexivity|exact H].
      * intros w n [_ []].
  - intros calendar_id.
    apply ends_seq_calm; [apply calm_events_for_date| |exact Hthrow].
    intros today_events.
    apply ends_seq_calm; [apply calm_add_days| |exact Hthrow].
    intros tomorrow.
    apply ends_seq_calm; [apply calm_events_for_date| |exact Hthrow].
    intros tomorrow_events.
    apply (ends_seq after_daily (after_monday_check inv E monday)).
    + apply ends_send_daily.
    + intros _. unfold after_monday_check. destruct monday.
      * apply ends_weekly.
      * apply ends_ret. split; [reflexivity|]. exists tt. reflexivity.
    + intros a n1 s n2 H1 H2. cbn [after_daily] in H1. subst n1.
      unfold after_monday_check in H2. destruct monday.
      * destruct s as [u|e|w]; cbn [after_weekly after_notify] in *.
        -- subst n2. reflexivity.
        -- right. destruct H2 as [He Hn]. split; [exact He|].
           split; [discriminate|]. intros Hn2.
           destruct Hn as [->|Hn]; [discriminate Hn2|exact Hn].
        -- destruct H2.
      * destruct H2 as [-> [u ->]]. reflexivity.
    + intros e n [[-> ->]|[-> ->]]; cbn [after_notify].
      * left. split; reflexivity.
      * right. split; [apply E_others; discriminate|].
        split; [reflexivity|discriminate].
    + intros w n [].
  - intros a n1 s n2 [-> _] H. exact H.
  - intros e n [-> H]. apply Hthrow, H.
  - intros w n [-> ->]. split; reflexivity.
Qed.

End Runs.

Section ProgramProperties.

Variable fromtimestamp : float -> outcome datetime.
Variable py_repr : pyval -> str.

(** X18.  What [main] has posted when it ends, in the mode that
    notifies.  A run that succeeds has posted one message, two on a
    Monday.  The message of the handler of [DiscordNotifierError] means
    that exactly one message went out, the daily one: the weekly message
    is posted outside [send_events] and its failure never arrives at that
    handler.  After any other end on a day that is no Monday nothing was
    posted. *)
Theorem posts_of_main (argv : list str) (env : gmap str str)
    (clock : nat -> datetime) (net : list reply) (how : ending)
    (sent : list request) :
  raises_as_documented fromtimestamp ->
  wants_list argv = false ->
  main fromtimestamp py_repr argv env clock net = Some (how, sent) ->
  posted (weekday (clock 0%nat) =? 0) how (posts sent).
Proof.
  intros Hdoc Hargv. unfold main. rewrite Hargv.
  destruct (load_config env) as [missing|config].
  { intros [= <- <-]. intros _. reflexivity. }
  destruct (notify fromtimestamp py_repr config clock net)
    as [[[s net'] sent']|] eqn:Hn; [|discriminate].
  destruct (ends_notify fromtimestamp py_repr (fun _ => True)
              (fun _ _ _ => I) (fun e => e <> DiscordNotifierError)
              (fun e He => He)) with (config := config) (clock := clock)
              (net := net) (s := s) (net' := net') (sent := sent')
    as [_ H]; [| exact I | exact Hn |].
  { intros cid net0 e urls Hg.
    destruct (get_events_escapes fromtimestamp py_repr cid net0 e urls Hdoc
                Hg) as [->|He]; [discriminate|].
    intros ->. discriminate He. }
  destruct s as [u|e|w]; intros [= <- <-]; cbn [after_notify] in H.
  - exact H.
  - destruct H as [[-> ->]|(He & Hm & _)]; [reflexivity|].
    destruct e; cbn [handler posted]; try exact Hm.
    contradiction He. reflexivity.
  - destruct H as [-> ->]. intros _. reflexivity.
Qed.

(** X19.  The weekly message is posted without a look at the status of
    the response.  When no request fails in transport and the run gets
    as far as the second message, it succeeds, whatever the status with
    which the webhook answers that message. *)
Theorem weekly_post_is_not_checked (argv : list str) (env : gmap str str)
    (clock : nat -> datetime) (net : list reply) (how : ending)
    (sent : list request) :
  wants_list argv = false ->
  forallb answered net = true ->
  main fromtimestamp py_repr argv env clock net = Some (how, sent) ->
  posts sent = 2%nat ->
  how = Done.
Proof.
  intros Hargv Hnet. unfold main. rewrite Hargv.
  destruct (load_config env) as [missing|config].
  { intros [= <- <-]. discriminate. }
  destruct (notify fromtimestamp py_repr config clock net)
    as [[[s net'] sent']|] eqn:Hn; [|discriminate].
  assert (all_answered (fun net => forallb answered net = true)) as Hall.
  { intros r net0 H. cbn [forallb] in H. apply andb_prop in H. tauto. }
  destruct (ends_notify fromtimestamp py_repr
              (fun net => forallb answered net = true)
              (fun r net0 H => proj2 (andb_prop _ _ H))
              (fun _ => True) (fun _ _ => I) (fun _ _ _ _ _ => I)
              config clock net s net' sent' Hnet Hn) as [_ H].
  destruct s as [u|e|w]; intros [= <- <-] Hposts; cbn [after_notify] in H.
  - reflexivity.
  - exfalso. destruct H as [[_ H]|(_ & _ & H)]; [congruence|].
    exact (H Hposts Hall).
  - exfalso. destruct H as [_ H]. congruence.
Qed.


(** X21.  Without one of the three required variables (the address, the
    password, the URL of the webhook; an empty value counts as missing)
    the program ends before any request, in both modes: the mode that
    only lists the calendars asks for the URL of the webhook too. *)
Theorem missing_variable_ends_the_run (argv : list str)
    (env : gmap str str) (clock : nat -> datetime) (net : list reply) :
  is_set (env !! text "TIMETREE_EMAIL")
  && is_set (env !! text "TIMETREE_PASSWORD")
  && is_set (env !! text "DISCORD_WEBHOOK_URL") = false ->
  exists missing,
    missing <> []
    /\ main fromtimestamp py_repr argv env clock net
       = Some (Exit1 (MissingVariables missing), []).
Proof.
  intros H.
  assert (exists missing, missing <> [] /\ load_config env = inl missing)
    as (missing & Hne & Hl).
  { unfold load_config.
    cbn [timetree_email timetree_password discord_webhook_url].
    destruct (is_set (env !! text "TIMETREE_EMAIL"));
      destruct (is_set (env !! text "TIMETREE_PASSWORD"));
      destruct (is_set (env !! text "DISCORD_WEBHOOK_URL"));
      try discriminate H; eexists; (split; [|reflexivity]); discriminate. }
  exists missing. split; [exact Hne|].
  unfold main. rewrite Hl. destruct (wants_list argv); reflexivity.
Qed.

(** X22.  The two lists of the daily notification share no timed event:
    the window of tomorrow starts where the one of today ends, so an
    event that is not flagged all-day and is listed for today is not
    listed for tomorrow. *)
Theorem timed_event_is_listed_once (calendar_id : str)
    (now tomorrow : datetime) (net1 net2 : list reply)
    (today_events tomorrow_events : list event) (e : event) :
  add_days now 1 = Return tomorrow ->
  Main.get_events_for_date fromtimestamp py_repr calendar_id now net1
  = Some (Return today_events) ->
  Main.get_events_for_date fromtimestamp py_repr calendar_id tomorrow net2
  = Some (Return tomorrow_events) ->
  truthy (all_day e) = false ->
  In e today_events -> ~ In e tomorrow_events.
Proof.
  intros Hadd H1 H2 Hday Hin1 Hin2.
  unfold Main.get_events_for_date in H1, H2.
  rewrite (add_days_midnight now tomorrow 1 Hadd) in H1.
  destruct (add_days (replace_midnight tomorrow) 1) as [end2|e2];
    [|discriminate H2].
  destruct (get_events fromtimestamp py_repr calendar_id net1)
    as [[[all1|e1] u1]|]; cbn [bind] in H1; try discriminate H1.
  destruct (get_events fromtimestamp py_repr calendar_id net2)
    as [[[all2|e2] u2]|]; cbn [bind] in H2; try discriminate H2.
  injection H1 as <-. injection H2 as <-.
  unfold events_in_range in Hin1, Hin2.
  apply filter_In in Hin1 as [_ Hin1]. apply filter_In in Hin2 as [_ Hin2].
  apply in_range_spec in Hin1 as [(s & Hs & _ & Hlt)|(Ht & _)];
    [|rewrite Hday in Ht; discriminate].
  unfold in_range in Hin2. rewrite Hs, Hday in Hin2.
  rewrite (ltb_not_leb s _ Hlt) in Hin2. discriminate Hin2.
Qed.

(** X23.  An all-day event of tomorrow is listed for today as well: when
    it starts at the midnight that ends today (and has an end after the
    start of today), [get_events_for_date] keeps it for today. *)
Theorem all_day_event_of_tomorrow_is_listed_today (calendar_id : str)
    (now tomorrow : datetime) (net : list reply) (all_events : list event)
    (urls : list str) (e : event) (d : datetime) :
  add_days now 1 = Return tomorrow ->
  get_events fromtimestamp py_repr calendar_id net
  = Some (Return all_events, urls) ->
  In e all_events ->
  truthy (all_day e) = true ->
  start e = At (replace_midnight tomorrow) ->
  end_ e = At d ->
  ltb (replace_midnight now) d = true ->
  exists today_events,
    Main.get_events_for_date fromtimestamp py_repr calendar_id now net
    = Some (Return today_events)
    /\ In e today_events.
Proof.
  intros Hadd Hget Hin Hday Hs He Hd.
  unfold Main.get_events_for_date.
  rewrite (add_days_midnight now tomorrow 1 Hadd), Hget. cbn [bind].
  eexists. split; [reflexivity|].
  unfold events_in_range. apply filter_In. split; [exact Hin|].
  unfold in_range. rewrite Hs, He, Hday, Hd, leb_refl.
  destruct (leb (replace_midnight now) (replace_midnight tomorrow)
            && ltb (replace_midnight tomorrow) (replace_midnight tomorrow));
    reflexivity.
Qed.

End ProgramProperties.

Lemma posts_of_main_witness :
  posted (weekday (monday_morning 0%nat) =? 0) Done (posts monday_requests).
Proof.
  apply (posts_of_main epoch_clock no_repr [] full_env monday_morning
           [signed_in; no_events; no_events; delivered; no_events; refused]
           Done monday_requests).
  - intros f e H. discriminate H.
  - reflexivity.
  - vm_compute. reflexivity.
Defined.

Lemma weekly_post_is_not_checked_witness : Done = Done.
Proof.
  apply (weekly_post_is_not_checked epoch_clock no_repr [] full_env
           monday_morning
           [signed_in; no_events; no_events; delivered; no_events; refused]
           Done monday_requests).
  - reflexivity.
  - reflexivity.
  - vm_compute. reflexivity.
  - vm_compute. reflexivity.
Defined.


Lemma missing_variable_ends_the_run_witness :
  exists missing,
    missing <> []
    /\ main epoch_clock no_repr [] ∅ wednesday_morning []
       = Some (Exit1 (MissingVariables missing), []).
Proof.
  apply (missing_variable_ends_the_run epoch_clock no_repr [] ∅
           wednesday_morning []).
  vm_compute. reflexivity.
Defined.

Lemma timed_event_is_listed_once_witness : ~ In epoch_event [].
Proof.
  apply (timed_event_is_listed_once epoch_clock no_repr (text "7")
           (mk 1970 1 1 7 0 0 0) (mk 1970 1 2 7 0 0 0) [epoch_page]
           [epoch_page] [epoch_event] [] epoch_event).
  - vm_compute. reflexivity.
  - vm_compute. reflexivity.
  - vm_compute. reflexivity.
  - reflexivity.
  - left. reflexivity.
Defined.

Lemma all_day_event_of_tomorrow_is_listed_today_witness :
  exists today_events,
    Main.get_events_for_date epoch_clock no_repr (text "7")
      (mk 1969 12 31 7 0 0 0) [epoch_all_day_page]
    = Some (Return today_events)
    /\ In epoch_all_day_event today_events.
Proof.
  apply (all_day_event_of_tomorrow_is_listed_today epoch_clock no_repr
           (text "7") (mk 1969 12 31 7 0 0 0) (mk 1970 1 1 7 0 0 0)
           [epoch_all_day_page] [epoch_all_day_event] [sync_url (text "7")]
           epoch_all_day_event (mk 1970 1 1 0 0 0 0)).
  - vm_compute. reflexivity.
  - vm_compute. reflexivity.
  - left. reflexivity.
  - reflexivity.
  - reflexivity.
  - reflexivity.
  - reflexivity.
Defined.

(* ================================================================== *)
(** ** The stretches of the program and the functions they stand for *)

Section Agreement.

Variable fromtimestamp : float -> outcome datetime.
Variable py_repr : pyval -> str.

(** How a stretch ends, without the replies that are left and the
    requests. *)
Lemma events_for_date_agrees (calendar_id : str) (target_date : datetime)
    (net : list reply) :
  option_map (fun x => fst (fst x))
    (events_for_date fromtimestamp py_repr calendar_id target_date net)
  = option_map of_outcome
      (Main.get_events_for_date fromtimestamp py_repr calendar_id
         target_date net).
Proof.
  unfold events_for_date, Main.get_events_for_date, seq, lift, fetch_events,
    ret.
  destruct (add_days (replace_midnight target_date) 1) as [end_|e];
    cbn [of_outcome]; [|reflexivity].
  destruct (get_events fromtimestamp py_repr calendar_id net)
    as [[[all_events|e] urls]|]; reflexivity.
Qed.

Lemma upcoming_events_agrees (calendar_id : option str) (days : Z)
    (now : datetime) (net : list reply) :
  option_map (fun x => fst (fst x))
    (upcoming_events fromtimestamp py_repr calendar_id days now net)
  = option_map of_outcome
      (get_upcoming_events fromtimestamp py_repr calendar_id days now net).
Proof.
  assert (forall cid net0 sent0,
            option_map (fun x => fst (fst x))
              match
                (all_events <~ fetch_events fromtimestamp py_repr cid ;;
                 end_date <~ lift (add_days (replace_midnight now) days) ;;
                 ret (events_in_range (replace_midnight now) end_date
                        all_events)) net0
              with
              | None => None
              | Some (s, net'', sent') => Some (s, net'', sent0 ++ sent')
              end
            = option_map of_outcome
                match get_events fromtimestamp py_repr cid net0 with
                | None => None
                | Some (r, _) =>
                  Some (all_events <- r ;;
                        end_date <- add_days (replace_midnight now) days ;;
                        Return (events_in_range (replace_midnight now)
                                  end_date all_events))
                end) as Hfetch.
  { intros cid net0 sent0. unfold seq, lift, fetch_events, ret.
    destruct (get_events fromtimestamp py_repr cid net0)
      as [[[all_events|e] urls]|]; cbn [of_outcome bind]; try reflexivity.
    destruct (add_days (replace_midnight now) days); reflexivity. }
  unfold upcoming_events, get_upcoming_events.
  destruct calendar_id as [[|c s]|].
  - unfold seq at 1. unfold seq at 1, fetch_calendars, request_one.
    destruct net as [|r net]; [reflexivity|].
    destruct (get_calendars py_repr r) as [[|cal cals]|e]; cbn [of_outcome];
      try reflexivity.
    unfold ret at 1. apply Hfetch.
  - unfold seq at 1, ret at 1. apply Hfetch.
  - unfold seq at 1. unfold seq at 1, fetch_calendars, request_one.
    destruct net as [|r net]; [reflexivity|].
    destruct (get_calendars py_repr r) as [[|cal cals]|e]; cbn [of_outcome];
      try reflexivity.
    unfold ret at 1. apply Hfetch.
Qed.

Lemma send_daily_agrees (today_events tomorrow_events : list event)
    (current_date tomorrow_date : datetime) (r : reply) (net : list reply) :
  option_map (fun x => fst (fst x))
    (send_daily py_repr today_events tomorrow_events current_date
       tomorrow_date (r :: net))
  = Some (of_outcome
            (send_daily_notification py_repr today_events tomorrow_events
               current_date tomorrow_date r)).
Proof.
  unfold send_daily, send_daily_notification, seq, lift, request_one.
  destruct (_create_daily_embeds py_repr today_events tomorrow_events
              current_date tomorrow_date); reflexivity.
Qed.

End Agreement.

(* ================================================================== *)
(** ** The daily notification and the delivery, for all events *)

Section AllEvents.

Variable py_repr : pyval -> str.






End AllEvents.




